(** * Sagemcom exporter: the collection loop of [script.py]

    A shallow embedding of the exporter's only source file.  The module-level
    Prometheus metrics become the constructors of three enumerations (plain
    gauges, labelled gauges, info metrics) that index the registry, the
    coroutines become computations in a state-and-exception monad, and
    everything the script obtains from outside (router client, ipify,
    speedtest, ping3) is read from a per-iteration record of call outcomes.

    Conventions.
    - A gauge value is a Python float: a rational or the NaN sentinel.
    - A labelled gauge is a finite map from the tuple of label values (in
      the order of the declared label names) to the value of that child.
    - Times are seconds on an integer grid; every awaited or blocking call
      takes a non-negative amount of time, whether it returns or raises. *)

From Stdlib Require Import ZArith QArith List Bool DecimalString DecimalPos DecimalZ.
From stdpp Require Import base option list strings gmap fin_maps.

Local Open Scope Z_scope.
Local Open Scope string_scope.

(** ** Python values that reach the metrics *)

(** A float as stored by [Gauge.set]: [float('nan')] is the only non-number
    the script produces. *)
Inductive sample : Type :=
  | Num (q : Q)
  | NaN.

Definition of_int (z : Z) : sample := Num (inject_Z z).

(** [str(n)] for an int. *)
Definition str_of_int (z : Z) : string := NilZero.string_of_int (Z.to_int z).

(** [str(x)] for an attribute that is a string or [None]. *)
Definition py_str (x : option string) : string :=
  match x with
  | Some s => s
  | None => "None"
  end.

(** [x or default] for an attribute that is a string or [None]: the empty
    string is falsy as well. *)
Definition py_or (x : option string) (default : string) : string :=
  match x with
  | Some s => if decide (s = "") then default else s
  | None => default
  end.

(** A JSON scalar as found in the dictionaries returned by
    [get_value_by_xpath]. *)
Inductive scalar : Type :=
  | SNone
  | SBool (b : bool)
  | SInt (z : Z)
  | SStr (s : string).

Definition scalar_str (v : scalar) : string :=
  match v with
  | SNone => "None"
  | SBool true => "True"
  | SBool false => "False"
  | SInt z => str_of_int z
  | SStr s => s
  end.

Definition scalar_truthy (v : scalar) : bool :=
  match v with
  | SNone => false
  | SBool b => b
  | SInt z => negb (z =? 0)%Z
  | SStr s => negb (bool_decide (s = ""))
  end.

(** [d.get(key, default)] on a dictionary given as its item list. *)
Fixpoint dict_get {V : Type} (d : list (string * V)) (key : string) (default : V) : V :=
  match d with
  | [] => default
  | (k, v) :: d' => if decide (k = key) then v else dict_get d' key default
  end.

(** ** Exceptions *)

(** The text of a raised [Exception]; only its rendering in the log line is
    ever used. *)
Definition exn : Type := string.

Inductive res (A : Type) : Type :=
  | Ok (a : A)
  | Exc (e : exn).
Arguments Ok {A} a.
Arguments Exc {A} e.

(** [float(value)] as applied by [Gauge.set] to an int-or-[None] attribute:
    [float(None)] raises [TypeError]. *)
Definition py_float (v : option Z) : res sample :=
  match v with
  | Some z => Ok (of_int z)
  | None => Exc "float() argument must be a string or a real number, not 'NoneType'"
  end.

(** ** Data returned by the collaborators *)

(** [client.get_device_info()]: the attributes the script reads. The five
    descriptive attributes are taken to be strings; the two counters may be
    [None]. *)
Record DeviceInfo : Type := mkDeviceInfo {
  mac_address : string;
  build_date : string;
  up_time : option Z;
  reboot_count : option Z;
  model_name : string;
  serial_number : string;
  software_version : string
}.

(** One entry of [client.get_hosts()]: the attributes the script reads.
    [id] is taken to be defined for every host of the table.
    [active] and [blacklisted] carry the truth value of the attribute;
    [blacklisted_schedule] carries [str] of the schedule when it is truthy
    and [None] when it is falsy. *)
Record Device : Type := mkDevice {
  id : string;
  name : option string;
  host_name : option string;
  interface_type : option string;
  active : bool;
  lease_start : option Z;
  lease_duration : option Z;
  lease_time_remaining : option Z;
  phys_address : option string;
  alias : option string;
  ip_address : option string;
  layer1_interface : option string;
  layer3_interface : option string;
  blacklisted : bool;
  blacklisted_schedule : option string
}.

(** An element of the sequence returned by [get_value_by_xpath]: a
    dictionary, or something else (which has no [get] method). *)
Inductive item (V : Type) : Type :=
  | IDict (d : list (string * V))
  | IOther.
Arguments IDict {V} d.
Arguments IOther {V}.

(** What [ping3.ping] returns: the delay in seconds, [None] when the probe
    timed out, [False] on any other ping error (unknown host, destination
    unreachable). *)
Inductive ping_result : Type :=
  | PingDelay (seconds : Q)
  | PingNone
  | PingFalse.

(** An awaited or blocking call: what it returns or raises, and how long it
    takes. *)
Record call (A : Type) : Type := mkCall {
  result : res A;
  took : N
}.
Arguments mkCall {A} result took.
Arguments result {A} c.
Arguments took {A} c.

(** Everything one loop iteration obtains from outside.
    - [client_port_mappings], [client_wifi_radios]: the value of
      [get_value_by_xpath], [None] or a sequence;
    - [ipify_lookup]: [requests.get], [raise_for_status] and
      [resp.json().get('ip')];
    - [speedtest_measure]: [Speedtest()], [get_best_server()], and the raw
      [download()], [upload()] (bit/s) and [results.ping] (ms). *)
Record World : Type := mkWorld {
  client_login : call unit;
  client_get_device_info : call DeviceInfo;
  client_get_hosts : call (list Device);
  client_port_mappings : call (option (list (item scalar)));
  client_wifi_radios : call (option (list (item (option Z))));
  ipify_lookup : call (option string);
  speedtest_measure : call (Q * Q * Q);
  ping3_ping : call ping_result
}.

(** Environment variables read at start-up. *)
Record Config : Type := mkConfig {
  COLLECTION_INTERVAL : Z;
  SERVER_PORT : Z
}.

Definition default_config : Config :=
  {| COLLECTION_INTERVAL := 300; SERVER_PORT := 8000 |}.

Definition speedtest_interval_seconds : Z := 3600.

(** ** The metrics registry *)

Inductive gauge : Type :=
  | device_uptime_gauge
  | device_reboot_count_gauge
  | connected_devices_gauge
  | speedtest_download_gauge
  | speedtest_upload_gauge
  | speedtest_ping_gauge
  | google_ping_gauge.

Inductive labelled_gauge : Type :=
  | device_info_gauge
  | device_status_gauge
  | device_lease_gauge
  | port_mapping_gauge
  | wifi_radio_signal_gauge
  | wifi_radio_channel_gauge.

Inductive info : Type :=
  | modem_info
  | public_ip_info.

#[global] Instance gauge_eq_dec : EqDecision gauge.
Proof. solve_decision. Defined.
#[global] Instance labelled_gauge_eq_dec : EqDecision labelled_gauge.
Proof. solve_decision. Defined.
#[global] Instance info_eq_dec : EqDecision info.
Proof. solve_decision. Defined.

(** Children of a labelled gauge, keyed by the tuple of label values. *)
Abbreviation family := (gmap (list string) sample).

(** The value of an [Info] metric: the dictionary last passed to [info]. *)
Abbreviation info_value := (list (string * string)).

(** ** Lines written to standard output *)

Inductive line : Type :=
  | ErrPublicIP (e : exn)
  | MsgSpeedTest (download upload ping_ms : Q)
  | ErrSpeedTest (e : exn)
  | MsgPing (ms : Q)
  | ErrPing (e : exn)
  | ErrPortMappings (e : exn)
  | MsgNoWifi
  | ErrWifi (e : exn)
  | MsgDeviceInfo (i : DeviceInfo)
  | MsgLastPull (t : Z)
  | MsgNextPull (t : Z)
  | ErrRetrieving (e : exn)
  | MsgStarted (port : Z)
  | MsgScraping (seconds : Z).

(** ** Program state *)

(** The registry, the module-level timing variables, the clock, and the
    output so far (most recent line first). *)
Record State : Type := mkState {
  gauges : gauge -> sample;
  families : labelled_gauge -> family;
  infos : info -> info_value;
  last_speedtest_time : Z;
  last_pull_time : option Z;
  next_pull_time : option Z;
  clock : Z;
  stdout : list line
}.

(** A fresh process started at time [t0]: plain gauges read 0, labelled
    gauges have no children, info metrics hold the empty dictionary. *)
Definition initial_state (t0 : Z) : State :=
  {| gauges := fun _ => of_int 0;
     families := fun _ => ∅;
     infos := fun _ => [];
     last_speedtest_time := 0;
     last_pull_time := None;
     next_pull_time := None;
     clock := t0;
     stdout := [] |}.

Definition with_gauges (f : gauge -> sample) (st : State) : State :=
  mkState f (families st) (infos st) (last_speedtest_time st)
          (last_pull_time st) (next_pull_time st) (clock st) (stdout st).

Definition with_families (f : labelled_gauge -> family) (st : State) : State :=
  mkState (gauges st) f (infos st) (last_speedtest_time st)
          (last_pull_time st) (next_pull_time st) (clock st) (stdout st).

Definition with_infos (f : info -> info_value) (st : State) : State :=
  mkState (gauges st) (families st) f (last_speedtest_time st)
          (last_pull_time st) (next_pull_time st) (clock st) (stdout st).

Definition with_last_speedtest_time (t : Z) (st : State) : State :=
  mkState (gauges st) (families st) (infos st) t
          (last_pull_time st) (next_pull_time st) (clock st) (stdout st).

Definition with_pull_times (last next : option Z) (st : State) : State :=
  mkState (gauges st) (families st) (infos st) (last_speedtest_time st)
          last next (clock st) (stdout st).

Definition with_clock (t : Z) (st : State) : State :=
  mkState (gauges st) (families st) (infos st) (last_speedtest_time st)
          (last_pull_time st) (next_pull_time st) t (stdout st).

Definition with_stdout (out : list line) (st : State) : State :=
  mkState (gauges st) (families st) (infos st) (last_speedtest_time st)
          (last_pull_time st) (next_pull_time st) (clock st) out.

(** Point update of a function on a type with decidable equality. *)
Definition upd {K V : Type} `{EqDecision K} (k : K) (v : V) (f : K -> V) : K -> V :=
  fun k' => if decide (k' = k) then v else f k'.

(** ** A monad for state and exceptions *)

(** A computation runs on a state and either returns a value or raises;
    state changes made before an exception was raised persist. *)
Definition M (A : Type) : Type := State -> res A * State.

Definition ret {A : Type} (a : A) : M A := fun st => (Ok a, st).

Definition bind {A B : Type} (m : M A) (k : A -> M B) : M B :=
  fun st =>
    match m st with
    | (Ok a, st') => k a st'
    | (Exc e, st') => (Exc e, st')
    end.

Definition raise {A : Type} (e : exn) : M A := fun st => (Exc e, st).

Declare Scope py_scope.
Delimit Scope py_scope with py.
Notation "x <- c1 ;; c2" := (bind c1 (fun x => c2))
  (at level 100, c1 at next level, right associativity) : py_scope.
Notation "c1 ;; c2" := (bind c1 (fun _ => c2))
  (at level 100, right associativity) : py_scope.
Local Open Scope py_scope.

(** [try: body except Exception as e: handler e]. *)
Definition try_except {A : Type} (body : M A) (handler : exn -> M A) : M A :=
  fun st =>
    match body st with
    | (Ok a, st') => (Ok a, st')
    | (Exc e, st') => handler e st'
    end.

(** An awaited (or blocking) call to a collaborator. *)
Definition await {A : Type} (c : call A) : M A :=
  fun st => (result c, with_clock (clock st + Z.of_N (took c)) st).

(** Evaluation of an expression that may raise. *)
Definition eval {A : Type} (r : res A) : M A := fun st => (r, st).

Definition print (l : line) : M unit :=
  fun st => (Ok tt, with_stdout (l :: stdout st) st).

(** [time.time()] and [datetime.now()]. *)
Definition now : M Z := fun st => (Ok (clock st), st).

(** Reading and assigning the module-level timing variables. *)
Definition get_last_speedtest_time : M Z :=
  fun st => (Ok (last_speedtest_time st), st).

Definition set_last_speedtest_time (t : Z) : M unit :=
  fun st => (Ok tt, with_last_speedtest_time t st).

Definition set_pull_times (last next : Z) : M unit :=
  fun st => (Ok tt, with_pull_times (Some last) (Some next) st).

(** [asyncio.sleep(delay)]: a non-positive delay returns at once. *)
Definition sleep (delay : Z) : M unit :=
  fun st => (Ok tt, with_clock (clock st + Z.max 0 delay) st).

(** [for x in l: body x]. *)
Fixpoint for_each {A : Type} (l : list A) (body : A -> M unit) : M unit :=
  match l with
  | [] => ret tt
  | x :: l' => body x ;; for_each l' body
  end.

(** *** Operations of the Prometheus client *)

(** [g.set(x)] on a plain gauge, with [x] already a float. *)
Definition gauge_set (g : gauge) (x : sample) : M unit :=
  fun st => (Ok tt, with_gauges (upd g x (gauges st)) st).

(** [g.clear()]: every child of the labelled gauge is removed. *)
Definition clear (g : labelled_gauge) : M unit :=
  fun st => (Ok tt, with_families (upd g ∅ (families st)) st).

(** [g.labels(...)]: the child for these label values, created with value 0
    if it does not exist yet. *)
Definition labels (g : labelled_gauge) (key : list string) : M unit :=
  fun st =>
    let m := families st g in
    match m !! key with
    | Some _ => (Ok tt, st)
    | None => (Ok tt, with_families (upd g (<[key := of_int 0]> m) (families st)) st)
    end.

(** [child.set(x)] on the child obtained from [labels], with [x] already a
    float. *)
Definition child_set (g : labelled_gauge) (key : list string) (x : sample) : M unit :=
  fun st => (Ok tt, with_families (upd g (<[key := x]> (families st g)) (families st)) st).

(** [i.info(d)]: the dictionary replaces the previous one. *)
Definition info_set (i : info) (d : info_value) : M unit :=
  fun st => (Ok tt, with_infos (upd i d (infos st)) st).

(** ** Helper functions of the script *)

(** The statements guarded by the [try] of [fetch_public_ip]:
    [requests.get], [raise_for_status] and [resp.json().get('ip')]. *)
Definition public_ip_try (w : World) : M (option string) :=
  await (ipify_lookup w).

(** [fetch_public_ip]: the address, or [None] after any exception. *)
Definition fetch_public_ip (w : World) : M (option string) :=
  try_except
    (public_ip_try w)
    (fun e => print (ErrPublicIP e) ;; ret None).

(** The statements guarded by the [try] of [run_speedtest]. *)
Definition speedtest_try (w : World) : M unit :=
  m <- await (speedtest_measure w) ;;
  let '(download, upload, ping_ms) := m in
  let download_speed := (download / 1000000)%Q in
  let upload_speed := (upload / 1000000)%Q in
  gauge_set speedtest_download_gauge (Num download_speed) ;;
  gauge_set speedtest_upload_gauge (Num upload_speed) ;;
  gauge_set speedtest_ping_gauge (Num ping_ms) ;;
  print (MsgSpeedTest download_speed upload_speed ping_ms).

Definition run_speedtest (w : World) : M unit :=
  try_except
    (speedtest_try w)
    (fun e => print (ErrSpeedTest e)).

(** [ping_time * 1000] for a value that is not [None]; [False] is the
    integer 0 in arithmetic. *)
Definition times_1000 (ping_time : ping_result) : Q :=
  match ping_time with
  | PingDelay seconds => (seconds * 1000)%Q
  | PingNone | PingFalse => 0%Q
  end.

Definition is_not_None (ping_time : ping_result) : bool :=
  match ping_time with
  | PingNone => false
  | PingDelay _ | PingFalse => true
  end.

(** The statements guarded by the [try] of [ping_google]. *)
Definition ping_try (w : World) : M unit :=
  ping_time <- await (ping3_ping w) ;;
  if is_not_None ping_time then
    gauge_set google_ping_gauge (Num (times_1000 ping_time)) ;;
    print (MsgPing (times_1000 ping_time))
  else
    gauge_set google_ping_gauge NaN.

Definition ping_google (w : World) : M unit :=
  try_except
    (ping_try w)
    (fun e => print (ErrPing e) ;; gauge_set google_ping_gauge NaN).

(** Truth value of what [get_value_by_xpath] returned: [None] and the empty
    sequence are falsy. *)
Definition truthy {A : Type} (v : option (list A)) : bool :=
  match v with
  | Some (_ :: _) => true
  | _ => false
  end.

Definition elements {A : Type} (v : option (list A)) : list A :=
  match v with
  | Some l => l
  | None => []
  end.

(** Access to [x.get]: [AttributeError] when [x] is not a dictionary. *)
Definition get_method {V : Type} (x : item V) : res (list (string * V)) :=
  match x with
  | IDict d => Ok d
  | IOther => Exc "object has no attribute 'get'"
  end.

(** The statements guarded by the [try] of [collect_port_mappings]. *)
Definition port_mappings_try (w : World) : M unit :=
  port_mappings <- await (client_port_mappings w) ;;
  clear port_mapping_gauge ;;
  if negb (truthy port_mappings) then ret tt
  else
    for_each (elements port_mappings) (fun mapping =>
      d <- eval (get_method mapping) ;;
      let external_port := dict_get d "external_port" (SStr "unknown") in
      let internal_port := dict_get d "internal_port" (SStr "unknown") in
      let protocol := dict_get d "protocol" (SStr "unknown") in
      let enabled :=
        if scalar_truthy (dict_get d "enabled" (SBool false))
        then "active" else "inactive" in
      let key := [scalar_str external_port; scalar_str internal_port;
                  scalar_str protocol; enabled] in
      labels port_mapping_gauge key ;;
      child_set port_mapping_gauge key (of_int 1)).

Definition collect_port_mappings (w : World) : M unit :=
  try_except
    (port_mappings_try w)
    (fun e => print (ErrPortMappings e)).

(** [enumerate(l)], counting from [i]. *)
Fixpoint enumerate_from {A : Type} (i : Z) (l : list A) : list (Z * A) :=
  match l with
  | [] => []
  | x :: l' => (i, x) :: enumerate_from (i + 1) l'
  end.

(** The statements guarded by the [try] of [collect_wifi_stats]. *)
Definition wifi_stats_try (w : World) : M unit :=
  wifi_radios <- await (client_wifi_radios w) ;;
  if negb (truthy wifi_radios) then print MsgNoWifi
  else
    clear wifi_radio_signal_gauge ;;
    clear wifi_radio_channel_gauge ;;
    for_each (enumerate_from 0 (elements wifi_radios)) (fun '(i, radio) =>
      d <- eval (get_method radio) ;;
      let channel := dict_get d "channel" (Some 0) in
      let signal_dbm := dict_get d "signal_strength" (Some 0) in
      labels wifi_radio_signal_gauge [str_of_int i] ;;
      x <- eval (py_float signal_dbm) ;;
      child_set wifi_radio_signal_gauge [str_of_int i] x ;;
      labels wifi_radio_channel_gauge [str_of_int i] ;;
      y <- eval (py_float channel) ;;
      child_set wifi_radio_channel_gauge [str_of_int i] y).

Definition collect_wifi_stats (w : World) : M unit :=
  try_except
    (wifi_stats_try w)
    (fun e => print (ErrWifi e)).

(** ** Main metrics collection *)

Definition device_status_labels (d : Device) : list string :=
  [id d; py_str (name d); py_str (host_name d); py_str (interface_type d)].

Definition device_lease_labels (d : Device) (metric : string) : list string :=
  [id d; metric].

Definition device_info_labels (d : Device) : list string :=
  [py_or (phys_address d) "unknown";
   py_or (alias d) "unknown";
   py_or (ip_address d) "unknown";
   py_or (host_name d) "unknown";
   if active d then "Active" else "Inactive";
   py_or (interface_type d) "unknown";
   match lease_time_remaining d with Some z => str_of_int z | None => "None" end;
   py_or (layer1_interface d) "unknown";
   py_or (layer3_interface d) "unknown";
   if blacklisted d then "True" else "False";
   match blacklisted_schedule d with Some s => s | None => "[]" end].

(** [1 if d.active else 0]. *)
Definition active_flag (d : Device) : sample :=
  if active d then of_int 1 else of_int 0.

(** The body of the [for d in devices] loop. *)
Definition export_device (d : Device) : M unit :=
  labels device_status_gauge (device_status_labels d) ;;
  child_set device_status_gauge (device_status_labels d) (active_flag d) ;;
  labels device_lease_gauge (device_lease_labels d "lease_start") ;;
  x <- eval (py_float (lease_start d)) ;;
  child_set device_lease_gauge (device_lease_labels d "lease_start") x ;;
  labels device_lease_gauge (device_lease_labels d "lease_duration") ;;
  y <- eval (py_float (lease_duration d)) ;;
  child_set device_lease_gauge (device_lease_labels d "lease_duration") y ;;
  labels device_lease_gauge (device_lease_labels d "lease_remaining") ;;
  z <- eval (py_float (lease_time_remaining d)) ;;
  child_set device_lease_gauge (device_lease_labels d "lease_remaining") z ;;
  labels device_info_gauge (device_info_labels d) ;;
  child_set device_info_gauge (device_info_labels d) (active_flag d).

(** The statements guarded by the [try] of [collect_sagemcom_metrics].
    Constructing, entering and leaving the client context performs no
    request and is not modelled. *)
Definition device_session (cfg : Config) (w : World) : M unit :=
  await (client_login w) ;;
  device_info <- await (client_get_device_info w) ;;
  print (MsgDeviceInfo device_info) ;;
  up <- eval (py_float (up_time device_info)) ;;
  gauge_set device_uptime_gauge up ;;
  reboots <- eval (py_float (reboot_count device_info)) ;;
  gauge_set device_reboot_count_gauge reboots ;;
  info_set modem_info
    [("device_id", mac_address device_info);
     ("build_date", build_date device_info);
     ("model_name", model_name device_info);
     ("serial_number", serial_number device_info);
     ("software_version", software_version device_info)] ;;
  devices <- await (client_get_hosts w) ;;
  let active_devices := filter (fun d => active d = true) devices in
  gauge_set connected_devices_gauge (of_int (Z.of_nat (length active_devices))) ;;
  clear device_status_gauge ;;
  clear device_lease_gauge ;;
  clear device_info_gauge ;;
  for_each devices export_device ;;
  collect_port_mappings w ;;
  collect_wifi_stats w ;;
  public_ip <- fetch_public_ip w ;;
  match public_ip with
  | Some ip =>
      if decide (ip = "") then ret tt
      else info_set public_ip_info [("public_ip", ip)]
  | None => ret tt
  end ;;
  t <- now ;;
  set_pull_times t (t + COLLECTION_INTERVAL cfg) ;;
  print (MsgLastPull t) ;;
  print (MsgNextPull (t + COLLECTION_INTERVAL cfg)).

Definition collect_sagemcom_metrics (cfg : Config) (w : World) : M unit :=
  try_except
    (device_session cfg w)
    (fun ex => print (ErrRetrieving ex)).

(** ** The periodic loop *)

(** One pass through the body of [while True]. *)
Definition update_metrics_iteration (cfg : Config) (w : World) : M unit :=
  collect_sagemcom_metrics cfg w ;;
  ping_google w ;;
  current_time <- now ;;
  last <- get_last_speedtest_time ;;
  (if decide (speedtest_interval_seconds <= current_time - last)
   then run_speedtest w ;; set_last_speedtest_time current_time
   else ret tt) ;;
  sleep (COLLECTION_INTERVAL cfg).

(** [update_metrics_loop], run for as many iterations as there are worlds;
    an exception that escapes an iteration ends the loop. *)
Fixpoint update_metrics_loop (cfg : Config) (ws : list World) : M unit :=
  match ws with
  | [] => ret tt
  | w :: ws' => update_metrics_iteration cfg w ;; update_metrics_loop cfg ws'
  end.

(** The [__main__] block after the HTTP server has started. *)
Definition main (cfg : Config) (ws : list World) : M unit :=
  print (MsgStarted (SERVER_PORT cfg)) ;;
  print (MsgScraping (COLLECTION_INTERVAL cfg)) ;;
  update_metrics_loop cfg ws.

(** * Vocabulary of the properties *)

(** ** Frames and outcomes *)

(** [keeps proj m]: running [m] never changes the part of the state selected
    by [proj], whether [m] returns or raises. *)
Definition keeps {A X : Type} (proj : State -> X) (m : M A) : Prop :=
  forall st, proj (snd (m st)) = proj st.

(** ** Polls of the router *)

(** A poll of the router succeeds when no statement under the [try] of
    [collect_sagemcom_metrics] raises. *)
Definition poll_succeeds (cfg : Config) (w : World) (st : State) : Prop :=
  fst (device_session cfg w st) = Ok tt.

(** [len([d for d in devices if d.active])]. *)
Definition active_count (devices : list Device) : Z :=
  Z.of_nat (length (filter (fun d => active d = true) devices)).

(** The series one host contributes to the device-status family. *)
Definition host_series (devices : list Device) : list (list string * sample) :=
  (fun d => (device_status_labels d, active_flag d)) <$> devices.

(** Installing series one after the other, later ones overwriting earlier
    ones with the same labels. *)
Definition install (series : list (list string * sample)) (m : family) : family :=
  foldl (fun m p => <[p.1 := p.2]> m) m series.

Definition status_family (st : State) : family := families st device_status_gauge.

(** ** The public address *)

(** The lookup at ipify raises (connection error, timeout, HTTP error
    status, undecodable body). *)
Definition lookup_failed (w : World) : Prop :=
  exists e, result (ipify_lookup w) = Exc e.

Definition public_ip (st : State) : info_value := infos st public_ip_info.

(** A computation from which no exception escapes. *)
Definition never_raises {A : Type} (m : M A) : Prop :=
  forall st, exists a, fst (m st) = Ok a.

(** ** Phases of an iteration *)

(** The state in which [time.time()] is read: after the router poll and the
    latency probe. *)
Definition after_fast_polls (cfg : Config) (w : World) (st : State) : State :=
  snd (ping_google w (snd (collect_sagemcom_metrics cfg w st))).

(** The value of [current_time] in this iteration. *)
Definition sample_time (cfg : Config) (w : World) (st : State) : Z :=
  clock (after_fast_polls cfg w st).

(** The condition of the [if] that guards [run_speedtest]. *)
Definition speedtest_due (cfg : Config) (w : World) (st : State) : Prop :=
  speedtest_interval_seconds <= sample_time cfg w st - last_speedtest_time st.

#[global] Instance speedtest_due_dec cfg w st : Decision (speedtest_due cfg w st).
Proof. unfold speedtest_due. apply _. Defined.

(** The state when the last poll of the iteration has completed, just
    before [asyncio.sleep]. *)
Definition after_polls (cfg : Config) (w : World) (st : State) : State :=
  let st2 := after_fast_polls cfg w st in
  if decide (speedtest_due cfg w st)
  then with_last_speedtest_time (clock st2) (snd (run_speedtest w st2))
  else st2.

(** [moves R m]: running [m] takes every state to an [R]-related one,
    whether [m] returns or raises. *)
Definition moves {A : Type} (R : State -> State -> Prop) (m : M A) : Prop :=
  forall st, R st (snd (m st)).

Definition clock_le (st st' : State) : Prop := clock st <= clock st'.

(** ** Counting calls by their output *)

Definition is_speedtest_line (l : line) : bool :=
  match l with
  | MsgSpeedTest _ _ _ | ErrSpeedTest _ => true
  | _ => false
  end.

(** How many times [run_speedtest] has been called: every call prints
    exactly one line, its result or its error. *)
Definition speedtest_lines (st : State) : nat :=
  length (List.filter is_speedtest_line (stdout st)).

(** The number of speed tests run by the iteration started in [st]. *)
Definition speedtest_runs (cfg : Config) (w : World) (st : State) : nat :=
  speedtest_lines (snd (update_metrics_iteration cfg w st)) - speedtest_lines st.

Definition is_poll_line (l : line) : bool :=
  match l with
  | MsgNextPull _ | ErrRetrieving _ => true
  | _ => false
  end.

(** How many times [collect_sagemcom_metrics] has been called: every call
    ends with exactly one of these lines. *)
Definition poll_lines (st : State) : nat :=
  length (List.filter is_poll_line (stdout st)).

Definition counts_when_ok {A : Type} (m : M A) : Prop :=
  forall st, poll_lines (snd (m st))
             = (poll_lines st + match fst (m st) with Ok _ => 1 | Exc _ => 0 end)%nat.

(** ** The latency probe *)

(** What [ping_google] exports for each outcome of [ping3.ping]. *)
Definition latency_of (r : res ping_result) : sample :=
  match r with
  | Ok (PingDelay seconds) => Num (seconds * 1000)
  | Ok PingFalse => Num 0
  | Ok PingNone => NaN
  | Exc _ => NaN
  end.

Definition exported_latency (st : State) : sample := gauges st google_ping_gauge.

(** ** Times of the speed tests *)



(** ** Example worlds *)

Definition returns {A : Type} (a : A) : call A := mkCall (Ok a) 0.

Definition raises {A : Type} (e : exn) : call A := mkCall (Exc e) 0.

Definition example_device_info : DeviceInfo :=
  mkDeviceInfo "AA:BB:CC:00:00:01" "2023-01-01" (Some 86400) (Some 3)
               "FAST3890" "SN123" "1.0".

(** A host with the given identifier, active flag and lease start. *)
Definition example_host (mac : string) (is_active : bool) (start : option Z) : Device :=
  mkDevice mac (Some mac) (Some "host") (Some "Ethernet") is_active
           start (Some 86400) (Some 3600)
           (Some mac) None (Some "192.168.0.10") None None false None.

(** A world in which every call answers at once: an empty host table, no
    port mappings, no radios, an address, a reply to the probe. *)
Definition quiet_world : World :=
  {| client_login := returns tt;
     client_get_device_info := returns example_device_info;
     client_get_hosts := returns [];
     client_port_mappings := returns None;
     client_wifi_radios := returns None;
     ipify_lookup := returns (Some "203.0.113.7");
     speedtest_measure := returns (94000000, 19000000, 12)%Q;
     ping3_ping := returns (PingDelay (1 # 50)) |}.

Definition with_client_login (c : call unit) (w : World) : World :=
  mkWorld c (client_get_device_info w) (client_get_hosts w) (client_port_mappings w)
          (client_wifi_radios w) (ipify_lookup w) (speedtest_measure w) (ping3_ping w).

Definition with_client_get_hosts (c : call (list Device)) (w : World) : World :=
  mkWorld (client_login w) (client_get_device_info w) c (client_port_mappings w)
          (client_wifi_radios w) (ipify_lookup w) (speedtest_measure w) (ping3_ping w).

Definition with_client_port_mappings (c : call (option (list (item scalar)))) (w : World) : World :=
  mkWorld (client_login w) (client_get_device_info w) (client_get_hosts w) c
          (client_wifi_radios w) (ipify_lookup w) (speedtest_measure w) (ping3_ping w).

Definition with_client_wifi_radios (c : call (option (list (item (option Z))))) (w : World) : World :=
  mkWorld (client_login w) (client_get_device_info w) (client_get_hosts w)
          (client_port_mappings w) c (ipify_lookup w) (speedtest_measure w) (ping3_ping w).

Definition with_ipify_lookup (c : call (option string)) (w : World) : World :=
  mkWorld (client_login w) (client_get_device_info w) (client_get_hosts w)
          (client_port_mappings w) (client_wifi_radios w) c (speedtest_measure w) (ping3_ping w).

Definition with_speedtest_measure (c : call (Q * Q * Q)) (w : World) : World :=
  mkWorld (client_login w) (client_get_device_info w) (client_get_hosts w)
          (client_port_mappings w) (client_wifi_radios w) (ipify_lookup w) c (ping3_ping w).

Definition with_ping3_ping (c : call ping_result) (w : World) : World :=
  mkWorld (client_login w) (client_get_device_info w) (client_get_hosts w)
          (client_port_mappings w) (client_wifi_radios w) (ipify_lookup w)
          (speedtest_measure w) c.

(** Two polls of the Wi-Fi radios: one radio on channel 6 at -40 dBm, then
    no radio at all. *)
Definition one_radio : World :=
  with_client_wifi_radios
    (returns (Some [IDict [("channel", Some 6); ("signal_strength", Some (-40))]]))
    quiet_world.

Definition no_radio : World :=
  with_client_wifi_radios (returns (Some [])) quiet_world.

Definition unsupported_radio_path : World :=
  with_client_wifi_radios (returns None) quiet_world.

(** ** Statements about failed polls and timing *)

(** One of the three requests that precede the [clear] calls of
    [collect_sagemcom_metrics] raises. *)
Definition request_fails (w : World) : Prop :=
  (exists e, result (client_login w) = Exc e) \/
  (exists e, result (client_get_device_info w) = Exc e) \/
  (exists e, result (client_get_hosts w) = Exc e).

(** A collector whose upstream request raises in world [w]. *)
Inductive failing_request (cfg : Config) (w : World) : M unit -> Prop :=
  | router_request :
      request_fails w -> failing_request cfg w (collect_sagemcom_metrics cfg w)
  | port_mapping_request e :
      result (client_port_mappings w) = Exc e ->
      failing_request cfg w (collect_port_mappings w)
  | wifi_request e :
      result (client_wifi_radios w) = Exc e ->
      failing_request cfg w (collect_wifi_stats w).

Definition is_error_line (l : line) : bool :=
  match l with
  | ErrPublicIP _ | ErrSpeedTest _ | ErrPing _ | ErrPortMappings _
  | ErrWifi _ | ErrRetrieving _ => true
  | _ => false
  end.

(** The statement "a failed router poll leaves every labelled family as it
    was", at one world and state. *)
Definition failed_poll_keeps_families (cfg : Config) (w : World) (st : State) : Prop :=
  (exists e, fst (device_session cfg w st) = Exc e) ->
  forall g, families (snd (collect_sagemcom_metrics cfg w st)) g = families st g.

(** Two hosts are known, then the host table lists one host whose lease
    start is [None]. *)
Definition two_hosts : World :=
  with_client_get_hosts
    (returns [example_host "AA:00:00:00:00:0A" true (Some 100);
              example_host "AA:00:00:00:00:0B" false (Some 200)])
    quiet_world.

Definition host_without_lease : World :=
  with_client_get_hosts
    (returns [example_host "AA:00:00:00:00:0A" true None])
    quiet_world.

Definition after_two_hosts : State :=
  snd (collect_sagemcom_metrics default_config two_hosts (initial_state 0)).

(** The time at which the router poll of the next iteration is dispatched:
    the clock when this iteration's [asyncio.sleep] returns. *)
Definition next_fast_poll_start (cfg : Config) (w : World) (st : State) : Z :=
  clock (snd (update_metrics_iteration cfg w st)).

(** The same world with a speed test that takes [d] seconds. *)
Definition with_speedtest_duration (d : N) (w : World) : World :=
  with_speedtest_measure (mkCall (result (speedtest_measure w)) d) w.

(** The statement "the fast collectors are not delayed by a running speed
    test", at one world and state: when the next router poll is dispatched
    does not depend on how long the speed test takes. *)
Definition speedtest_never_delays (cfg : Config) (w : World) (st : State) : Prop :=
  forall d, next_fast_poll_start cfg (with_speedtest_duration d w) st
            = next_fast_poll_start cfg w st.




(** Whenever [body] raises, the last line [collector] has printed when it
    returns is the error line for that exception. *)
Definition logs_errors {A : Type} (body collector : M A) (err : exn -> line) : Prop :=
  forall st e, fst (body st) = Exc e ->
               head (stdout (snd (collector st))) = Some (err e).

(** A router that cannot be reached: the login times out, and so does the
    latency probe. *)
Definition router_down : World :=
  with_ping3_ping (returns PingNone)
    (with_client_login (raises "timeout") quiet_world).

Definition lookup_times_out : World :=
  with_ipify_lookup (raises "timeout") quiet_world.

(** ** Further vocabulary *)

(** The gauges [run_speedtest] writes. *)
Definition is_speedtest_gauge (g : gauge) : bool :=
  match g with
  | speedtest_download_gauge | speedtest_upload_gauge | speedtest_ping_gauge => true
  | _ => false
  end.

(** The module-level variables that announce the pull times. *)
Definition pull_times (st : State) : option Z * option Z :=
  (last_pull_time st, next_pull_time st).

(** A host all of whose lease values are numbers. *)
Definition has_leases (d : Device) : Prop :=
  lease_start d <> None /\ lease_duration d <> None /\ lease_time_remaining d <> None.

(** A device-information record whose two counters are numbers. *)
Definition has_counters (i : DeviceInfo) : Prop :=
  up_time i <> None /\ reboot_count i <> None.

(** A computation that records the pull times exactly when it returns:
    the time of its completion and that time plus the collection interval. *)
Definition sets_pull_times_when_ok (cfg : Config) (m : M unit) : Prop :=
  forall st,
    match fst (m st) with
    | Ok _ => pull_times (snd (m st))
              = (Some (clock (snd (m st))),
                 Some (clock (snd (m st)) + COLLECTION_INTERVAL cfg))
    | Exc _ => pull_times (snd (m st)) = pull_times st
    end.

(** The value of a lease series: the number the host reports, or the 0 of
    a child that [labels] created and [set] never reached. *)
Definition lease_value (v : option Z) : sample :=
  match v with
  | Some z => of_int z
  | None => of_int 0
  end.

(** The three series one host contributes to the device-lease family. *)
Definition lease_series_of (d : Device) : list (list string * sample) :=
  [(device_lease_labels d "lease_start", lease_value (lease_start d));
   (device_lease_labels d "lease_duration", lease_value (lease_duration d));
   (device_lease_labels d "lease_remaining", lease_value (lease_time_remaining d))].

Definition lease_series (devices : list Device) : list (list string * sample) :=
  devices ≫= lease_series_of.

Definition lease_family (st : State) : family := families st device_lease_gauge.

(** A lookup that returns without an address: the key is missing, or the
    address is the empty string. *)
Definition lookup_without_address (w : World) : Prop :=
  result (ipify_lookup w) = Ok None \/ result (ipify_lookup w) = Ok (Some "").

(** The label values of one port mapping, in the order external_port,
    internal_port, protocol, status. *)
Definition port_mapping_labels (d : list (string * scalar)) : list string :=
  [scalar_str (dict_get d "external_port" (SStr "unknown"));
   scalar_str (dict_get d "internal_port" (SStr "unknown"));
   scalar_str (dict_get d "protocol" (SStr "unknown"));
   if scalar_truthy (dict_get d "enabled" (SBool false)) then "active" else "inactive"].

(** The dictionaries at the front of a sequence, up to its first element
    that is not a dictionary. *)
Fixpoint leading_dicts {V : Type} (items : list (item V)) : list (list (string * V)) :=
  match items with
  | IDict d :: items' => d :: leading_dicts items'
  | _ => []
  end.

Definition all_dicts {V : Type} (items : list (item V)) : Prop :=
  Forall (fun x => exists d, x = IDict d) items.

Definition port_family (st : State) : family := families st port_mapping_gauge.

(** The body of the [for mapping in port_mappings] loop. *)
Definition export_port_mapping (mapping : item scalar) : M unit :=
  d <- eval (get_method mapping) ;;
  labels port_mapping_gauge (port_mapping_labels d) ;;
  child_set port_mapping_gauge (port_mapping_labels d) (of_int 1).

(** The series one port mapping contributes to the family. *)
Definition port_series (ds : list (list (string * scalar))) : list (list string * sample) :=
  (fun d => (port_mapping_labels d, of_int 1)) <$> ds.

(** Two port mappings: one complete and enabled, one without any key. *)
Definition two_port_mappings : list (item scalar) :=
  [IDict [("external_port", SInt 8080); ("internal_port", SInt 80);
          ("protocol", SStr "TCP"); ("enabled", SBool true)];
   IDict []].

Definition forwarded_ports : World :=
  with_client_port_mappings (returns (Some two_port_mappings)) quiet_world.

(** The body of the [for i, radio in enumerate(wifi_radios)] loop. *)
Definition export_radio (p : Z * item (option Z)) : M unit :=
  let '(i, radio) := p in
  d <- eval (get_method radio) ;;
  let channel := dict_get d "channel" (Some 0) in
  let signal_dbm := dict_get d "signal_strength" (Some 0) in
  labels wifi_radio_signal_gauge [str_of_int i] ;;
  x <- eval (py_float signal_dbm) ;;
  child_set wifi_radio_signal_gauge [str_of_int i] x ;;
  labels wifi_radio_channel_gauge [str_of_int i] ;;
  y <- eval (py_float channel) ;;
  child_set wifi_radio_channel_gauge [str_of_int i] y.

(** [radio.get("signal_strength", 0)] and [radio.get("channel", 0)]. *)
Definition radio_signal (d : list (string * option Z)) : option Z :=
  dict_get d "signal_strength" (Some 0).

Definition radio_channel (d : list (string * option Z)) : option Z :=
  dict_get d "channel" (Some 0).

(** A radio whose signal strength and channel are numbers (or missing, in
    which case they default to 0). *)
Definition numeric_radio (d : list (string * option Z)) : Prop :=
  radio_signal d <> None /\ radio_channel d <> None.

(** The series of the radios numbered from [i], for one of the two values. *)
Fixpoint radio_series (value : list (string * option Z) -> option Z) (i : Z)
    (ds : list (list (string * option Z))) : list (list string * sample) :=
  match ds with
  | [] => []
  | d :: ds' => ([str_of_int i], lease_value (value d)) :: radio_series value (i + 1) ds'
  end.

Definition signal_family (st : State) : family := families st wifi_radio_signal_gauge.

Definition channel_family (st : State) : family := families st wifi_radio_channel_gauge.

(** A first radio whose signal strength is null, followed by a sound one. *)
Definition radio_without_signal : World :=
  with_client_wifi_radios
    (returns (Some [IDict [("channel", Some 11); ("signal_strength", None)];
                    IDict [("channel", Some 36); ("signal_strength", Some (-55))]]))
    quiet_world.

(** ** Statements about the host family and about error isolation *)

(** How many series of a family carry the given host identifier in their
    first label. *)
Definition series_of_identifier (m : family) (mac : string) : nat :=
  length (List.filter (fun p : list string * sample => bool_decide (head p.1 = Some mac))
                      (map_to_list m)).

(** The statement "after a successful poll the device-status family holds
    exactly one series for each host identifier of the host table", at one
    world and state. *)
Definition one_series_per_identifier (cfg : Config) (w : World) (st : State) : Prop :=
  poll_succeeds cfg w st ->
  forall devices,
    result (client_get_hosts w) = Ok devices ->
    forall d, d ∈ devices ->
      series_of_identifier (status_family (snd (collect_sagemcom_metrics cfg w st))) (id d)
      = 1%nat.

(** A host table that lists one identifier twice, under two names. *)
Definition renamed_host (mac host : string) (is_active : bool) : Device :=
  mkDevice mac (Some host) (Some host) (Some "Ethernet") is_active
           (Some 100) (Some 86400) (Some 3600)
           (Some mac) None (Some "192.168.0.10") None None false None.

Definition repeated_identifier : World :=
  with_client_get_hosts
    (returns [renamed_host "AA:00:00:00:00:0A" "laptop" true;
              renamed_host "AA:00:00:00:00:0A" "laptop-wifi" false])
    quiet_world.





(** The port-mapping and Wi-Fi requests both raise; everything else answers. *)
Definition nested_requests_fail : World :=
  with_client_port_mappings (raises "XPath not found")
    (with_client_wifi_radios (raises "XPath not found") quiet_world).


(** * Properties *)

(** ** Point updates *)

Lemma upd_eq {K V : Type} `{EqDecision K} (k : K) (v : V) (f : K -> V) :
  upd k v f k = v.
Proof. unfold upd. now case_decide. Qed.

Lemma upd_ne {K V : Type} `{EqDecision K} (k k' : K) (v : V) (f : K -> V) :
  k' <> k -> upd k v f k' = f k'.
Proof. unfold upd. now case_decide. Qed.

Ltac simpl_upd :=
  repeat first [rewrite upd_eq | rewrite upd_ne by discriminate].

(** ** Running computations *)

Lemma bind_Ok {A B : Type} (m : M A) (k : A -> M B) st a st1 :
  m st = (Ok a, st1) -> bind m k st = k a st1.
Proof. intros E. unfold bind. now rewrite E. Qed.

Lemma try_except_Ok {A : Type} (body : M A) (handler : exn -> M A) st a :
  fst (body st) = Ok a -> try_except body handler st = body st.
Proof.
  unfold try_except. destruct (body st) as [[a'|e] st1]; cbn; intros E.
  - reflexivity.
  - discriminate.
Qed.

(** ** Frames: what a computation leaves alone *)

Section Frames.
Context {X : Type} (proj : State -> X).

Lemma keeps_bind {A B : Type} (m : M A) (k : A -> M B) :
  keeps proj m -> (forall a, keeps proj (k a)) -> keeps proj (bind m k).
Proof.
  intros Hm Hk st. unfold bind. specialize (Hm st).
  destruct (m st) as [[a|e] st1]; cbn in *.
  - now rewrite Hk.
  - exact Hm.
Qed.

Lemma keeps_try_except {A : Type} (body : M A) (handler : exn -> M A) :
  keeps proj body -> (forall e, keeps proj (handler e)) ->
  keeps proj (try_except body handler).
Proof.
  intros Hb Hh st. unfold try_except. specialize (Hb st).
  destruct (body st) as [[a|e] st1]; cbn in *.
  - exact Hb.
  - now rewrite Hh.
Qed.

Lemma keeps_for_each {A : Type} (l : list A) (body : A -> M unit) :
  (forall x, keeps proj (body x)) -> keeps proj (for_each l body).
Proof.
  intros Hb. induction l as [|x l IH]; cbn.
  - intros st. reflexivity.
  - apply keeps_bind; auto.
Qed.

(** The same when the continuation is only known to keep [proj] for the
    values the first computation can return. *)
Lemma keeps_bind_returning {A B : Type} (R : A -> Prop) (m : M A) (k : A -> M B) :
  keeps proj m -> (forall st a, fst (m st) = Ok a -> R a) ->
  (forall a, R a -> keeps proj (k a)) -> keeps proj (bind m k).
Proof.
  intros Hm HR Hk st. unfold bind. specialize (Hm st). specialize (HR st).
  destruct (m st) as [[a|e] st1]; cbn in *.
  - rewrite Hk; auto.
  - exact Hm.
Qed.

(** What a sequence leaves in [proj] is what its first statement left
    there, when the rest keeps [proj]. *)
Lemma keeps_after_bind {A B : Type} (m : M A) (k : A -> M B) st :
  (forall a, keeps proj (k a)) -> proj (snd (bind m k st)) = proj (snd (m st)).
Proof.
  intros Hk. unfold bind. destruct (m st) as [[a|e] st1]; cbn.
  - apply Hk.
  - reflexivity.
Qed.

Lemma keeps_ret {A : Type} (a : A) : keeps proj (ret a).
Proof. intros st. reflexivity. Qed.

Lemma keeps_eval {A : Type} (r : res A) : keeps proj (eval r).
Proof. intros st. reflexivity. Qed.
End Frames.

(** Decomposes a [keeps] goal along the structure of the computation and
    closes the leaves by evaluation. *)
Ltac keeps_leaf :=
  let st := fresh "st" in
  intros st; unfold labels; cbn;
  repeat match goal with
         | |- context [match ?m !! ?k with _ => _ end] => destruct (m !! k); cbn
         end;
  unfold upd; repeat case_decide; solve [reflexivity | congruence].

Ltac keeps_step :=
  first
    [ progress unfold export_device, collect_port_mappings, port_mappings_try,
        collect_wifi_stats, wifi_stats_try, fetch_public_ip, public_ip_try,
        run_speedtest, speedtest_try, ping_google, ping_try
    | apply keeps_ret
    | apply keeps_eval
    | apply keeps_bind; [|intros ?]
    | apply keeps_try_except; [|intros ?]
    | apply keeps_for_each; intros ?
    | match goal with
      | |- forall _, _ => intros ?
      | |- keeps _ (if ?b then _ else _) => destruct b
      | |- keeps _ (match ?x with _ => _ end) => destruct x
      end
    | keeps_leaf ].

Ltac solve_keeps := repeat keeps_step.

Lemma keeps_run {A X : Type} (proj : State -> X) (m : M A) st r st1 :
  keeps proj m -> m st = (r, st1) -> proj st1 = proj st.
Proof. intros H E. specialize (H st). now rewrite E in H. Qed.

(** The plain gauges are left alone by the loop over the hosts and by the
    nested collectors. *)

Lemma export_device_keeps_gauges ds : keeps gauges (for_each ds export_device).
Proof. unfold export_device. solve_keeps. Qed.

Lemma collect_port_mappings_keeps_gauges w : keeps gauges (collect_port_mappings w).
Proof. unfold collect_port_mappings. solve_keeps. Qed.

Lemma collect_wifi_stats_keeps_gauges w : keeps gauges (collect_wifi_stats w).
Proof. unfold collect_wifi_stats. solve_keeps. Qed.

Lemma fetch_public_ip_keeps_gauges w : keeps gauges (fetch_public_ip w).
Proof. unfold fetch_public_ip. solve_keeps. Qed.

Lemma bind_Ok_inv {A B : Type} (m : M A) (k : A -> M B) st b :
  fst (bind m k st) = Ok b ->
  exists a st1, m st = (Ok a, st1) /\ fst (k a st1) = Ok b.
Proof.
  unfold bind. destruct (m st) as [[a|e] st1]; cbn; intros H.
  - eauto.
  - discriminate.
Qed.

(** Symbolic execution of a computation known to return: peel the first
    statement off the hypothesis and off the goal. *)
Tactic Notation "run_ok" hyp(H) "as" ident(a) ident(st1) ident(E) :=
  apply bind_Ok_inv in H as (a & st1 & E & H);
  rewrite (bind_Ok _ _ _ _ _ E).

(** The same for a statement that cannot raise and whose effect is known by
    evaluation. *)
Tactic Notation "run_prim" hyp(H) :=
  let a := fresh "a" in
  let st1 := fresh "st" in
  let E := fresh "E" in
  apply bind_Ok_inv in H as (a & st1 & E & H);
  rewrite (bind_Ok _ _ _ _ _ E);
  cbn in E; injection E as <- <-.

(** ** The connected-devices gauge *)

(** C10. After every successful device poll the connected-devices gauge
    equals the number of hosts of that poll's host table whose active flag
    is true; inactive hosts are not counted. *)
Theorem connected_devices_counts_active_hosts cfg w st devices :
  poll_succeeds cfg w st ->
  result (client_get_hosts w) = Ok devices ->
  gauges (snd (collect_sagemcom_metrics cfg w st)) connected_devices_gauge
  = of_int (active_count devices).
Proof.
  intros H Hhosts. unfold collect_sagemcom_metrics.
  rewrite (try_except_Ok _ _ _ tt H).
  unfold poll_succeeds, device_session in *.
  run_ok H as r_login st1 E1.
  run_ok H as device_info st2 E2.
  run_prim H.
  run_ok H as up st3 E3.
  run_prim H.
  run_ok H as reboots st4 E4.
  run_prim H. run_prim H.
  run_ok H as devices' st5 E5.
  injection E5 as E5 <-. rewrite Hhosts in E5. injection E5 as <-.
  do 4 run_prim H.
  run_ok H as r_loop st6 E6.
  apply (keeps_run gauges) in E6; [|apply export_device_keeps_gauges].
  run_ok H as r_pm st7 E7.
  apply (keeps_run gauges) in E7; [|apply collect_port_mappings_keeps_gauges].
  run_ok H as r_wifi st8 E8.
  apply (keeps_run gauges) in E8; [|apply collect_wifi_stats_keeps_gauges].
  run_ok H as public_ip st9 E9.
  apply (keeps_run gauges) in E9; [|apply fetch_public_ip_keeps_gauges].
  run_ok H as r_ip st10 E10.
  assert (Hip : gauges st10 = gauges st9).
  { destruct public_ip as [ip|]; [destruct (decide (ip = ""))|]; cbn in E10;
      injection E10 as <- <-; reflexivity. }
  cbn. rewrite Hip, E9, E8, E7, E6. cbn. now rewrite upd_eq.
Qed.

(** ** The host table *)

Lemma install_list_to_map (series : list (list string * sample)) (m : family) :
  install series m = list_to_map (reverse series) ∪ m.
Proof.
  revert m. induction series as [|[k v] series IH]; intros m.
  - cbn. now rewrite (left_id_L ∅ (∪)).
  - unfold install in *. cbn [foldl fst snd].
    rewrite IH, reverse_cons, list_to_map_app. cbn [list_to_map foldr fst snd uncurry].
    rewrite <- (assoc_L (∪)), (insert_union_singleton_l m).
    now rewrite insert_empty.
Qed.

Lemma export_device_status (d : Device) (st : State) :
  status_family (snd (export_device d st))
  = <[device_status_labels d := active_flag d]> (status_family st).
Proof.
  unfold export_device, status_family, bind, labels, child_set, eval.
  destruct (families st device_status_gauge !! device_status_labels d) eqn:Hk; cbn.
  all: destruct (lease_start d), (lease_duration d), (lease_time_remaining d); cbn.
  all: repeat match goal with
         | |- context [match ?m !! ?k with _ => _ end] => destruct (m !! k); cbn
         end.
  all: simpl_upd; try rewrite insert_insert_eq; reflexivity.
Qed.

Lemma for_each_export_device_status (devices : list Device) (st st1 : State) :
  for_each devices export_device st = (Ok tt, st1) ->
  status_family st1 = install (host_series devices) (status_family st).
Proof.
  revert st. induction devices as [|d devices IH]; intros st E; cbn in *.
  - now injection E as <-.
  - unfold bind in E. destruct (export_device d st) as [[[]|e] st2] eqn:Ed.
    + rewrite (IH _ E).
      pose proof (export_device_status d st) as Hd. rewrite Ed in Hd.
      cbn in Hd. now rewrite Hd.
    + discriminate.
Qed.

Lemma collect_port_mappings_keeps_status w : keeps status_family (collect_port_mappings w).
Proof. unfold collect_port_mappings. solve_keeps. Qed.

Lemma collect_wifi_stats_keeps_status w : keeps status_family (collect_wifi_stats w).
Proof. unfold collect_wifi_stats. solve_keeps. Qed.

Lemma fetch_public_ip_keeps_status w : keeps status_family (fetch_public_ip w).
Proof. unfold fetch_public_ip. solve_keeps. Qed.

Lemma host_series_keys (devices : list Device) :
  NoDup (id <$> devices) -> NoDup (host_series devices).*1.
Proof.
  intros Hnd. unfold host_series. rewrite <- list_fmap_compose.
  apply (NoDup_fmap_1 (fun key => default "" (head key))).
  rewrite <- list_fmap_compose. exact Hnd.
Qed.

(** Whatever the host table holds, a successful poll leaves in the
    device-status family the series of its hosts and nothing else, installed
    in the order of the table on an empty family. *)
Lemma successful_poll_status_family cfg w st devices :
  poll_succeeds cfg w st ->
  result (client_get_hosts w) = Ok devices ->
  status_family (snd (collect_sagemcom_metrics cfg w st))
  = install (host_series devices) ∅.
Proof.
  intros H Hhosts. unfold collect_sagemcom_metrics.
  rewrite (try_except_Ok _ _ _ tt H).
  unfold poll_succeeds, device_session in *.
  run_ok H as r_login st1 E1.
  run_ok H as device_info st2 E2.
  run_prim H.
  run_ok H as up st3 E3.
  run_prim H.
  run_ok H as reboots st4 E4.
  run_prim H. run_prim H.
  run_ok H as devices' st5 E5.
  injection E5 as E5 <-. rewrite Hhosts in E5. injection E5 as <-.
  do 4 run_prim H.
  run_ok H as r_loop st6 E6. destruct r_loop.
  apply for_each_export_device_status in E6.
  run_ok H as r_pm st7 E7.
  apply (keeps_run status_family) in E7; [|apply collect_port_mappings_keeps_status].
  run_ok H as r_wifi st8 E8.
  apply (keeps_run status_family) in E8; [|apply collect_wifi_stats_keeps_status].
  run_ok H as found st9 E9.
  apply (keeps_run status_family) in E9; [|apply fetch_public_ip_keeps_status].
  run_ok H as r_ip st10 E10.
  assert (Hip : status_family st10 = status_family st9).
  { destruct found as [ip|]; [destruct (decide (ip = ""))|]; cbn in E10;
      injection E10 as <- <-; reflexivity. }
  assert (Hfinal : status_family (snd ((t <- now ;;
              set_pull_times t (t + COLLECTION_INTERVAL cfg) ;;
              print (MsgLastPull t) ;;
              print (MsgNextPull (t + COLLECTION_INTERVAL cfg))) st10))
            = status_family st10) by reflexivity.
  rewrite Hfinal, Hip, E9, E8, E7, E6. f_equal.
Qed.

(** After a successful poll whose host table lists each host identifier
    once, the device-status family consists, up to order, of exactly one
    series per host of that poll (its labels and its state); whatever the
    family held before the poll is gone. *)
Theorem host_family_one_series_per_host cfg w st devices :
  poll_succeeds cfg w st ->
  result (client_get_hosts w) = Ok devices ->
  NoDup (id <$> devices) ->
  map_to_list (status_family (snd (collect_sagemcom_metrics cfg w st)))
  ≡ₚ host_series devices.
Proof.
  intros H Hhosts Hnd.
  rewrite (successful_poll_status_family cfg w st devices H Hhosts).
  rewrite install_list_to_map, (right_id_L ∅ (∪)).
  rewrite map_to_list_to_map.
  - apply reverse_Permutation.
  - rewrite fmap_reverse, reverse_Permutation. apply host_series_keys, Hnd.
Qed.

(** ** The public address *)

Lemma fetch_public_ip_failed w st a :
  lookup_failed w -> fst (fetch_public_ip w st) = Ok a -> a = None.
Proof.
  intros [e He]. unfold fetch_public_ip, public_ip_try, try_except, await. rewrite He. cbn.
  now intros [= <-].
Qed.

Lemma device_session_keeps_public_ip cfg w :
  lookup_failed w -> keeps public_ip (device_session cfg w).
Proof.
  intros Hw. unfold device_session.
  do 16 (apply keeps_bind; [solve_keeps | intros ?]).
  apply (keeps_bind_returning _ (fun ip => ip = None)).
  - solve_keeps.
  - intros st ip. now apply fetch_public_ip_failed.
  - intros ip ->. solve_keeps.
Qed.

Lemma iteration_keeps_public_ip cfg w :
  lookup_failed w -> keeps public_ip (update_metrics_iteration cfg w).
Proof.
  intros Hw. unfold update_metrics_iteration, collect_sagemcom_metrics.
  apply keeps_bind.
  - apply keeps_try_except;
      [now apply device_session_keeps_public_ip | solve_keeps].
  - solve_keeps.
Qed.

Lemma loop_keeps_public_ip cfg ws :
  Forall lookup_failed ws -> keeps public_ip (update_metrics_loop cfg ws).
Proof.
  induction 1 as [|w ws Hw _ IH]; cbn.
  - apply keeps_ret.
  - apply keeps_bind; [now apply iteration_keeps_public_ip | auto].
Qed.

Lemma device_session_sets_public_ip cfg w st ip :
  poll_succeeds cfg w st ->
  result (ipify_lookup w) = Ok (Some ip) -> ip <> "" ->
  public_ip (snd (device_session cfg w st)) = [("public_ip", ip)].
Proof.
  intros H Hip Hne. unfold poll_succeeds, device_session in *.
  run_ok H as r_login st1 E1.
  run_ok H as device_info st2 E2.
  run_prim H.
  run_ok H as up st3 E3.
  run_prim H.
  run_ok H as reboots st4 E4.
  run_prim H. run_prim H.
  run_ok H as devices st5 E5.
  do 4 run_prim H.
  run_ok H as r_loop st6 E6.
  run_ok H as r_pm st7 E7.
  run_ok H as r_wifi st8 E8.
  run_ok H as found st9 E9.
  unfold fetch_public_ip, public_ip_try, try_except, await in E9. rewrite Hip in E9.
  cbn in E9. injection E9 as <- <-.
  run_ok H as r_ip st10 E10.
  destruct (decide (ip = "")) as [|_]; [contradiction|].
  cbn in E10. injection E10 as <- <-.
  unfold public_ip. cbn. now rewrite upd_eq.
Qed.

Lemma after_collect_keeps_public_ip cfg w :
  keeps public_ip
    (ping_google w ;;
     current_time <- now ;;
     last <- get_last_speedtest_time ;;
     (if decide (speedtest_interval_seconds <= current_time - last)
      then run_speedtest w ;; set_last_speedtest_time current_time
      else ret tt) ;;
     sleep (COLLECTION_INTERVAL cfg)).
Proof. solve_keeps. Qed.

(** C7. A failed public-IP lookup issues no replacement of the public-IP
    info record: after any number of consecutive iterations whose lookup
    fails the record is what it was before them, so it is what the last
    successful lookup installed, and it is still the empty initial record
    when no lookup has succeeded since the process started. *)
Theorem failed_public_ip_lookups_keep_info cfg ws :
  Forall lookup_failed ws ->
  (forall st, public_ip (snd (update_metrics_loop cfg ws st)) = public_ip st) /\
  (forall t0, public_ip (snd (main cfg ws (initial_state t0))) = []) /\
  (forall w0 st ip,
      poll_succeeds cfg w0 st ->
      result (ipify_lookup w0) = Ok (Some ip) -> ip <> "" ->
      public_ip (snd (update_metrics_loop cfg (w0 :: ws) st))
      = [("public_ip", ip)]).
Proof.
  intros Hws. pose proof (loop_keeps_public_ip cfg ws Hws) as Hloop.
  split; [exact Hloop|]. split.
  - intros t0.
    assert (Hmain : keeps public_ip (main cfg ws)).
    { unfold main. do 2 (apply keeps_bind; [solve_keeps | intros ?]). exact Hloop. }
    now rewrite Hmain.
  - intros w0 st ip Hok Hip Hne.
    cbn [update_metrics_loop].
    rewrite keeps_after_bind by (intros ?; exact Hloop).
    unfold update_metrics_iteration.
    rewrite keeps_after_bind by (intros ?; apply after_collect_keeps_public_ip).
    unfold collect_sagemcom_metrics. rewrite (try_except_Ok _ _ _ tt Hok).
    now apply device_session_sets_public_ip.
Qed.

(** ** Error isolation *)

Lemma never_raises_bind {A B : Type} (m : M A) (k : A -> M B) :
  never_raises m -> (forall a, never_raises (k a)) -> never_raises (bind m k).
Proof.
  intros Hm Hk st. destruct (Hm st) as [a Ha]. unfold bind.
  destruct (m st) as [[a'|e] st1]; cbn in Ha; [apply Hk | discriminate].
Qed.

Lemma never_raises_try_except {A : Type} (body : M A) (handler : exn -> M A) :
  (forall e, never_raises (handler e)) -> never_raises (try_except body handler).
Proof.
  intros Hh st. unfold try_except.
  destruct (body st) as [[a|e] st1]; [now exists a | apply Hh].
Qed.

Lemma never_raises_prim {A : Type} (m : M A) (f : State -> A) :
  (forall st, fst (m st) = Ok (f st)) -> never_raises m.
Proof. intros H st. exists (f st). apply H. Qed.

Ltac never_raises_step :=
  first
    [ apply never_raises_try_except; intros ?
    | apply never_raises_bind; [|intros ?]
    | match goal with
      | |- never_raises (if ?b then _ else _) => destruct b
      end
    | (apply (never_raises_prim _ (fun _ => tt)); reflexivity)
    | (apply (never_raises_prim _ (fun _ => None)); reflexivity)
    | (apply (never_raises_prim _ clock); reflexivity)
    | (apply (never_raises_prim _ last_speedtest_time); reflexivity) ].

Ltac solve_never_raises := repeat never_raises_step.

Lemma fetch_public_ip_never_raises w : never_raises (fetch_public_ip w).
Proof. unfold fetch_public_ip. solve_never_raises. Qed.

Lemma run_speedtest_never_raises w : never_raises (run_speedtest w).
Proof. unfold run_speedtest. solve_never_raises. Qed.

Lemma ping_google_never_raises w : never_raises (ping_google w).
Proof. unfold ping_google. solve_never_raises. Qed.

Lemma collect_port_mappings_never_raises w : never_raises (collect_port_mappings w).
Proof. unfold collect_port_mappings. solve_never_raises. Qed.

Lemma collect_wifi_stats_never_raises w : never_raises (collect_wifi_stats w).
Proof. unfold collect_wifi_stats. solve_never_raises. Qed.

Lemma collect_sagemcom_metrics_never_raises cfg w :
  never_raises (collect_sagemcom_metrics cfg w).
Proof. unfold collect_sagemcom_metrics. solve_never_raises. Qed.

Lemma update_metrics_iteration_never_raises cfg w :
  never_raises (update_metrics_iteration cfg w).
Proof.
  unfold update_metrics_iteration.
  apply never_raises_bind; [apply collect_sagemcom_metrics_never_raises | intros _].
  apply never_raises_bind; [apply ping_google_never_raises | intros _].
  do 2 (apply never_raises_bind; [solve_never_raises | intros ?]).
  apply never_raises_bind; [|intros _; solve_never_raises].
  case_decide; [|solve_never_raises].
  apply never_raises_bind; [apply run_speedtest_never_raises | intros _].
  solve_never_raises.
Qed.

Lemma update_metrics_loop_never_raises cfg ws :
  never_raises (update_metrics_loop cfg ws).
Proof.
  induction ws as [|w ws IH]; cbn.
  - solve_never_raises.
  - apply never_raises_bind; [apply update_metrics_iteration_never_raises | auto].
Qed.

(** ** The shape of an iteration *)

Lemma run_never_raises {A : Type} (m : M A) st :
  never_raises m -> exists a, m st = (Ok a, snd (m st)).
Proof.
  intros H. destruct (H st) as [a Ha]. exists a.
  destruct (m st) as [r st1]; cbn in *. now rewrite Ha.
Qed.

Lemma run_never_raises_unit (m : M unit) st :
  never_raises m -> m st = (Ok tt, snd (m st)).
Proof. intros H. destruct (run_never_raises m st H) as [[] E]. exact E. Qed.

Lemma collect_keeps_last_speedtest_time cfg w :
  keeps last_speedtest_time (collect_sagemcom_metrics cfg w).
Proof. unfold collect_sagemcom_metrics, device_session. solve_keeps. Qed.

Lemma ping_google_keeps_last_speedtest_time w :
  keeps last_speedtest_time (ping_google w).
Proof. solve_keeps. Qed.

Lemma after_fast_polls_last_speedtest_time cfg w st :
  last_speedtest_time (after_fast_polls cfg w st) = last_speedtest_time st.
Proof.
  unfold after_fast_polls.
  now rewrite ping_google_keeps_last_speedtest_time, collect_keeps_last_speedtest_time.
Qed.

(** An iteration always completes, in the state its last poll left, with the
    clock advanced by the sleep. *)
Lemma update_metrics_iteration_run cfg w st :
  update_metrics_iteration cfg w st
  = (Ok tt, with_clock (clock (after_polls cfg w st) + Z.max 0 (COLLECTION_INTERVAL cfg))
                       (after_polls cfg w st)).
Proof.
  unfold update_metrics_iteration, after_polls.
  pose proof (after_fast_polls_last_speedtest_time cfg w st) as Hlast.
  unfold speedtest_due, sample_time, after_fast_polls in *.
  rewrite (bind_Ok _ _ _ _ _
             (run_never_raises_unit _ st (collect_sagemcom_metrics_never_raises cfg w))).
  set (st1 := snd (collect_sagemcom_metrics cfg w st)) in *.
  rewrite (bind_Ok _ _ _ _ _
             (run_never_raises_unit _ st1 (ping_google_never_raises w))).
  set (st2 := snd (ping_google w st1)) in *.
  rewrite (bind_Ok now _ st2 (clock st2) st2 eq_refl).
  rewrite (bind_Ok get_last_speedtest_time _ st2 (last_speedtest_time st2) st2 eq_refl).
  rewrite Hlast.
  destruct (decide (speedtest_interval_seconds <= clock st2 - last_speedtest_time st)).
  - unfold bind at 1. unfold bind at 1.
    rewrite (run_never_raises_unit _ st2 (run_speedtest_never_raises w)).
    reflexivity.
  - reflexivity.
Qed.

(** ** Time only moves forward *)

Section Moves.
Context (R : State -> State -> Prop).
Hypothesis R_refl : forall st, R st st.
Hypothesis R_trans : forall st1 st2 st3, R st1 st2 -> R st2 st3 -> R st1 st3.

Lemma moves_bind {A B : Type} (m : M A) (k : A -> M B) :
  moves R m -> (forall a, moves R (k a)) -> moves R (bind m k).
Proof.
  intros Hm Hk st. unfold bind. specialize (Hm st).
  destruct (m st) as [[a|e] st1]; cbn in *.
  - eapply R_trans; [exact Hm | apply Hk].
  - exact Hm.
Qed.

Lemma moves_try_except {A : Type} (body : M A) (handler : exn -> M A) :
  moves R body -> (forall e, moves R (handler e)) -> moves R (try_except body handler).
Proof.
  intros Hb Hh st. unfold try_except. specialize (Hb st).
  destruct (body st) as [[a|e] st1]; cbn in *.
  - exact Hb.
  - eapply R_trans; [exact Hb | apply Hh].
Qed.

Lemma moves_for_each {A : Type} (l : list A) (body : A -> M unit) :
  (forall x, moves R (body x)) -> moves R (for_each l body).
Proof.
  intros Hb. induction l as [|x l IH]; cbn.
  - intros st. apply R_refl.
  - apply moves_bind; auto.
Qed.
End Moves.

Lemma clock_le_refl st : clock_le st st.
Proof. unfold clock_le. lia. Qed.

Lemma clock_le_trans st1 st2 st3 : clock_le st1 st2 -> clock_le st2 st3 -> clock_le st1 st3.
Proof. unfold clock_le. lia. Qed.

Ltac clock_leaf :=
  let st := fresh "st" in
  intros st; unfold clock_le, labels; cbn;
  repeat match goal with
         | |- context [match ?m !! ?k with _ => _ end] => destruct (m !! k); cbn
         end;
  lia.

Ltac clock_step :=
  first
    [ progress unfold export_device, collect_port_mappings, port_mappings_try,
        collect_wifi_stats, wifi_stats_try, fetch_public_ip, public_ip_try,
        run_speedtest, speedtest_try, ping_google, ping_try,
        collect_sagemcom_metrics, device_session
    | apply (moves_bind _ clock_le_trans); [|intros ?]
    | apply (moves_try_except _ clock_le_trans); [|intros ?]
    | apply (moves_for_each _ clock_le_refl clock_le_trans); intros ?
    | match goal with
      | |- forall _, _ => intros ?
      | |- moves _ (if ?b then _ else _) => destruct b
      | |- moves _ (match ?x with _ => _ end) => destruct x
      end
    | clock_leaf ].

Lemma collect_sagemcom_metrics_clock cfg w : moves clock_le (collect_sagemcom_metrics cfg w).
Proof. repeat clock_step. Qed.

Lemma ping_google_clock w : moves clock_le (ping_google w).
Proof. repeat clock_step. Qed.

Lemma run_speedtest_clock w st :
  clock (snd (run_speedtest w st)) = clock st + Z.of_N (took (speedtest_measure w)).
Proof.
  unfold run_speedtest, speedtest_try, try_except, bind, await.
  destruct (result (speedtest_measure w)) as [[[download upload] ping_ms]|e]; reflexivity.
Qed.

Lemma sample_time_ge cfg w st : clock st <= sample_time cfg w st.
Proof.
  unfold sample_time, after_fast_polls.
  pose proof (collect_sagemcom_metrics_clock cfg w st).
  pose proof (ping_google_clock w (snd (collect_sagemcom_metrics cfg w st))).
  unfold clock_le in *. lia.
Qed.

(** ** Counting speed tests *)

Lemma run_speedtest_lines w st :
  speedtest_lines (snd (run_speedtest w st)) = S (speedtest_lines st).
Proof.
  unfold run_speedtest, speedtest_try, try_except, bind, await.
  destruct (result (speedtest_measure w)) as [[[download upload] ping_ms]|e]; reflexivity.
Qed.

Lemma collect_keeps_speedtest_lines cfg w :
  keeps speedtest_lines (collect_sagemcom_metrics cfg w).
Proof. unfold collect_sagemcom_metrics, device_session. solve_keeps. Qed.

Lemma ping_google_keeps_speedtest_lines w : keeps speedtest_lines (ping_google w).
Proof. solve_keeps. Qed.

Lemma speedtest_runs_due cfg w st :
  speedtest_runs cfg w st = if decide (speedtest_due cfg w st) then 1%nat else 0%nat.
Proof.
  unfold speedtest_runs. rewrite update_metrics_iteration_run. cbn [snd].
  assert (Hfast : speedtest_lines (after_fast_polls cfg w st) = speedtest_lines st).
  { unfold after_fast_polls.
    now rewrite ping_google_keeps_speedtest_lines, collect_keeps_speedtest_lines. }
  unfold after_polls. destruct (decide (speedtest_due cfg w st)).
  - change (speedtest_lines (with_clock ?t (with_last_speedtest_time ?t' ?s)))
      with (speedtest_lines s).
    rewrite run_speedtest_lines, Hfast. lia.
  - change (speedtest_lines (with_clock ?t ?s)) with (speedtest_lines s).
    rewrite Hfast. lia.
Qed.


(** ** Counting router polls *)

Lemma counts_when_ok_bind {A B : Type} (m : M A) (k : A -> M B) :
  keeps poll_lines m -> (forall a, counts_when_ok (k a)) -> counts_when_ok (bind m k).
Proof.
  intros Hm Hk st. unfold bind. specialize (Hm st).
  destruct (m st) as [[a|e] st1]; cbn in *.
  - rewrite Hk, Hm. reflexivity.
  - rewrite Hm. lia.
Qed.

Lemma device_session_poll_lines cfg w : counts_when_ok (device_session cfg w).
Proof.
  unfold device_session.
  do 21 (apply counts_when_ok_bind; [solve_keeps | intros ?]).
  intros st. cbn. unfold poll_lines. cbn. lia.
Qed.

Lemma collect_sagemcom_metrics_poll_lines cfg w st :
  poll_lines (snd (collect_sagemcom_metrics cfg w st)) = S (poll_lines st).
Proof.
  unfold collect_sagemcom_metrics, try_except.
  pose proof (device_session_poll_lines cfg w st) as H.
  destruct (device_session cfg w st) as [[[]|e] st1]; cbn in *.
  - lia.
  - unfold poll_lines in *. cbn. lia.
Qed.

Lemma iteration_poll_lines cfg w st :
  poll_lines (snd (update_metrics_iteration cfg w st)) = S (poll_lines st).
Proof.
  rewrite <- (collect_sagemcom_metrics_poll_lines cfg w st).
  unfold update_metrics_iteration.
  rewrite (bind_Ok _ _ _ _ _
             (run_never_raises_unit _ st (collect_sagemcom_metrics_never_raises cfg w))).
  assert (Hrest : keeps poll_lines
            (ping_google w ;;
             current_time <- now ;;
             last <- get_last_speedtest_time ;;
             (if decide (speedtest_interval_seconds <= current_time - last)
              then run_speedtest w ;; set_last_speedtest_time current_time
              else ret tt) ;;
             sleep (COLLECTION_INTERVAL cfg))) by solve_keeps.
  apply Hrest.
Qed.

(** ** The latency probe *)

Lemma ping_google_exports w st :
  exported_latency (snd (ping_google w st)) = latency_of (result (ping3_ping w)).
Proof.
  unfold exported_latency, ping_google, ping_try, try_except, bind, await, latency_of.
  destruct (result (ping3_ping w)) as [[seconds| |]|e]; cbn; now rewrite upd_eq.
Qed.

Lemma iteration_exports_latency cfg w st :
  exported_latency (snd (update_metrics_iteration cfg w st))
  = latency_of (result (ping3_ping w)).
Proof.
  unfold update_metrics_iteration.
  rewrite (bind_Ok _ _ _ _ _
             (run_never_raises_unit _ st (collect_sagemcom_metrics_never_raises cfg w))).
  rewrite keeps_after_bind by solve_keeps.
  apply ping_google_exports.
Qed.

(** ** Speed tests are spaced by the benchmark period *)



(** ** The latency probe, continued *)

(** A probe that times out, or a call to [ping3.ping] that raises, exports
    the NaN sentinel and the collector returns normally. *)
Lemma ping_timeout_exports_nan w st :
  (result (ping3_ping w) = Ok PingNone \/ exists e, result (ping3_ping w) = Exc e) ->
  fst (ping_google w st) = Ok tt /\ exported_latency (snd (ping_google w st)) = NaN.
Proof.
  intros H. rewrite ping_google_exports. split.
  - destruct (ping_google_never_raises w st) as [[] E]. exact E.
  - destruct H as [->|[e ->]]; reflexivity.
Qed.

(** A probe that is answered after [seconds] exports the delay in
    milliseconds, whatever the gauge held before. *)
Lemma ping_reply_exports_milliseconds w st seconds :
  result (ping3_ping w) = Ok (PingDelay seconds) ->
  exported_latency (snd (ping_google w st)) = Num (seconds * 1000).
Proof. intros H. rewrite ping_google_exports. now rewrite H. Qed.

(** C8. When [ping3.ping] reports an error other than a timeout (unknown
    host, destination unreachable) by returning [False], the test
    [ping_time is not None] passes and the collector exports [False * 1000],
    that is 0 milliseconds, and prints it as a measurement; the NaN
    sentinel is not exported. *)
Theorem unreachable_target_exports_zero w st took_ping :
  let w' := with_ping3_ping (mkCall (Ok PingFalse) took_ping) w in
  fst (ping_google w' st) = Ok tt /\
  exported_latency (snd (ping_google w' st)) = Num 0 /\
  exported_latency (snd (ping_google w' st)) <> NaN /\
  stdout (snd (ping_google w' st)) = MsgPing 0 :: stdout st.
Proof.
  cbn. repeat apply conj.
  - reflexivity.
  - unfold exported_latency. cbn. now rewrite upd_eq.
  - unfold exported_latency. cbn. now rewrite upd_eq.
  - reflexivity.
Qed.

(** ** Empty observation sets *)

(** An empty host table empties the three per-host families. *)
Lemma empty_host_table_empties_families cfg w st g :
  poll_succeeds cfg w st ->
  result (client_get_hosts w) = Ok [] ->
  g = device_status_gauge \/ g = device_lease_gauge \/ g = device_info_gauge ->
  families (snd (collect_sagemcom_metrics cfg w st)) g = ∅.
Proof.
  intros H Hhosts Hg. unfold collect_sagemcom_metrics.
  rewrite (try_except_Ok _ _ _ tt H).
  unfold poll_succeeds, device_session in *.
  run_ok H as r_login st1 E1.
  run_ok H as device_info st2 E2.
  run_prim H.
  run_ok H as up st3 E3.
  run_prim H.
  run_ok H as reboots st4 E4.
  run_prim H. run_prim H.
  run_ok H as devices' st5 E5.
  injection E5 as E5 <-. rewrite Hhosts in E5. injection E5 as <-.
  do 4 run_prim H.
  run_prim H.
  set (proj := fun s : State => families s g).
  assert (Hpm : keeps proj (collect_port_mappings w))
    by (subst proj; destruct Hg as [->|[->| ->]]; solve_keeps).
  assert (Hwifi : keeps proj (collect_wifi_stats w))
    by (subst proj; destruct Hg as [->|[->| ->]]; solve_keeps).
  assert (Hip : keeps proj (fetch_public_ip w))
    by (subst proj; solve_keeps).
  run_ok H as r_pm st7 E7. apply (keeps_run proj _ _ _ _ Hpm) in E7.
  run_ok H as r_wifi st8 E8. apply (keeps_run proj _ _ _ _ Hwifi) in E8.
  run_ok H as found st9 E9. apply (keeps_run proj _ _ _ _ Hip) in E9.
  run_ok H as r_ip st10 E10.
  assert (Hset : proj st10 = proj st9).
  { destruct found as [ip|]; [destruct (decide (ip = ""))|]; cbn in E10;
      injection E10 as <- <-; reflexivity. }
  change (proj st10 = ∅). rewrite Hset, E9, E8, E7.
  subst proj. cbn. destruct Hg as [->|[->| ->]]; now simpl_upd.
Qed.

(** A port-mapping request that returns nothing empties the port-mapping
    family: the gauge is cleared before the result is inspected. *)
Lemma no_port_mappings_empties_family w st :
  (exists v, result (client_port_mappings w) = Ok v /\ truthy v = false) ->
  fst (port_mappings_try w st) = Ok tt /\
  families (snd (collect_port_mappings w st)) port_mapping_gauge = ∅.
Proof.
  intros (v & Hv & Hfalsy).
  unfold collect_port_mappings, try_except, port_mappings_try, bind, await, clear.
  rewrite Hv. cbn. rewrite Hfalsy. cbn. split; [reflexivity | now rewrite upd_eq].
Qed.

(** A Wi-Fi request that returns nothing leaves both Wi-Fi families as they
    were: the early [return] comes before the two [clear] calls. *)
Lemma no_radios_keeps_families w st g :
  (exists v, result (client_wifi_radios w) = Ok v /\ truthy v = false) ->
  fst (wifi_stats_try w st) = Ok tt /\
  families (snd (collect_wifi_stats w st)) g = families st g.
Proof.
  intros (v & Hv & Hfalsy).
  unfold collect_wifi_stats, try_except, wifi_stats_try, bind, await.
  rewrite Hv. cbn. rewrite Hfalsy. cbn. split; reflexivity.
Qed.

(** C3. A Wi-Fi poll that succeeds with no radios (an empty list, or [None]
    for an unsupported path) does not empty the Wi-Fi families: the series
    of radio 0 installed by the previous poll are still exported with their
    old values, although the poll is not an error. *)
Theorem no_radios_leaves_stale_series :
  let st1 := snd (collect_wifi_stats one_radio (initial_state 0)) in
  let st2 := snd (collect_wifi_stats no_radio st1) in
  let st3 := snd (collect_wifi_stats unsupported_radio_path st2) in
  fst (wifi_stats_try no_radio st1) = Ok tt /\
  fst (wifi_stats_try unsupported_radio_path st2) = Ok tt /\
  families st1 wifi_radio_signal_gauge !! ["0"] = Some (of_int (-40)) /\
  families st2 wifi_radio_signal_gauge !! ["0"] = Some (of_int (-40)) /\
  families st2 wifi_radio_channel_gauge !! ["0"] = Some (of_int 6) /\
  families st3 wifi_radio_signal_gauge !! ["0"] = Some (of_int (-40)) /\
  families st3 wifi_radio_channel_gauge !! ["0"] = Some (of_int 6) /\
  families st2 wifi_radio_signal_gauge <> ∅ /\
  families st3 wifi_radio_channel_gauge <> ∅.
Proof.
  cbn zeta.
  assert (H2 : forall g st, families (snd (collect_wifi_stats no_radio st)) g = families st g).
  { intros g st. apply no_radios_keeps_families. now exists (Some []). }
  assert (H3 : forall g st,
             families (snd (collect_wifi_stats unsupported_radio_path st)) g = families st g).
  { intros g st. apply no_radios_keeps_families. now exists None. }
  rewrite !H3, !H2.
  assert (Hs : families (snd (collect_wifi_stats one_radio (initial_state 0)))
                 wifi_radio_signal_gauge !! ["0"] = Some (of_int (-40)))
    by (vm_compute; reflexivity).
  assert (Hc : families (snd (collect_wifi_stats one_radio (initial_state 0)))
                 wifi_radio_channel_gauge !! ["0"] = Some (of_int 6))
    by (vm_compute; reflexivity).
  repeat apply conj; try assumption; try reflexivity.
  - intros Hempty. rewrite Hempty in Hs. discriminate.
  - intros Hempty. rewrite Hempty in Hc. discriminate.
Qed.

(** ** Failed polls *)

Lemma device_session_request_fails cfg w st :
  request_fails w ->
  exists e, fst (device_session cfg w st) = Exc e /\
            families (snd (device_session cfg w st)) = families st.
Proof.
  intros Hreq. unfold device_session, bind, await, eval.
  destruct (result (client_login w)) as [[]|e1] eqn:E1; [|now exists e1].
  destruct (result (client_get_device_info w)) as [device_info|e2] eqn:E2;
    [|now exists e2].
  cbn. destruct (up_time device_info); cbn; [|eexists; split; reflexivity].
  destruct (reboot_count device_info); cbn; [|eexists; split; reflexivity].
  destruct (result (client_get_hosts w)) as [devices|e3] eqn:E3; [|now exists e3].
  destruct Hreq as [[e H]|[[e H]|[e H]]]; congruence.
Qed.

(** C1, as the code has it. For each collector with labelled families, a
    poll that fails because its upstream request raises (login, device
    information or host table for the router poll; the XPath request for
    port mappings and for Wi-Fi radios) is logged as an error and leaves
    every labelled family exactly as the previous poll left it. *)
Theorem failed_request_keeps_families cfg w poll st :
  failing_request cfg w poll ->
  (exists l, head (stdout (snd (poll st))) = Some l /\ is_error_line l = true) /\
  (forall g, families (snd (poll st)) g = families st g).
Proof.
  intros [Hreq|e He|e He].
  - destruct (device_session_request_fails cfg w st Hreq) as (e & Hexc & Hfam).
    unfold collect_sagemcom_metrics, try_except.
    destruct (device_session cfg w st) as [[[]|e'] st1]; cbn in *; [discriminate|].
    split; [now exists (ErrRetrieving e') | intros g; now rewrite Hfam].
  - unfold collect_port_mappings, try_except, port_mappings_try, bind, await.
    rewrite He. cbn. split; [now exists (ErrPortMappings e) | reflexivity].
  - unfold collect_wifi_stats, try_except, wifi_stats_try, bind, await.
    rewrite He. cbn. split; [now exists (ErrWifi e) | reflexivity].
Qed.

(** A host-table request that times out after a poll with two hosts leaves
    the device-status family as that poll left it. *)
Lemma failed_request_keeps_families_witness :
  families (snd (collect_sagemcom_metrics default_config
                   (with_client_get_hosts (raises "timeout") quiet_world)
                   after_two_hosts)) device_status_gauge
  = families after_two_hosts device_status_gauge.
Proof.
  apply (failed_request_keeps_families default_config
           (with_client_get_hosts (raises "timeout") quiet_world)).
  apply router_request. right. right. exists "timeout". reflexivity.
Defined.

(** C1, as stated, fails: a poll that raises inside the host loop (a host
    whose lease start is [None]) has already cleared the three families, so
    the series of the host that is no longer listed are gone, the lease
    family holds one half-installed series of value 0 instead of the six
    of the previous poll, and the device-info family is empty. *)
Lemma failed_poll_changes_families :
  let st' := snd (collect_sagemcom_metrics default_config host_without_lease
                    after_two_hosts) in
  ~ failed_poll_keeps_families default_config host_without_lease after_two_hosts /\
  (exists e, fst (device_session default_config host_without_lease after_two_hosts)
             = Exc e) /\
  head (stdout st')
  = Some (ErrRetrieving
            "float() argument must be a string or a real number, not 'NoneType'") /\
  size (families after_two_hosts device_status_gauge) = 2%nat /\
  size (families after_two_hosts device_lease_gauge) = 6%nat /\
  size (families after_two_hosts device_info_gauge) = 2%nat /\
  map_to_list (families st' device_status_gauge)
  = [(["AA:00:00:00:00:0A"; "AA:00:00:00:00:0A"; "host"; "Ethernet"], of_int 1)] /\
  map_to_list (families st' device_lease_gauge)
  = [(["AA:00:00:00:00:0A"; "lease_start"], of_int 0)] /\
  map_to_list (families st' device_info_gauge) = [].
Proof.
  cbn zeta. split.
  - unfold failed_poll_keeps_families. intros H.
    assert (Hfail : exists e, fst (device_session default_config host_without_lease
                                     after_two_hosts) = Exc e)
      by (eexists; vm_compute; reflexivity).
    specialize (H Hfail device_status_gauge).
    assert (Hbefore : families after_two_hosts device_status_gauge
                      !! ["AA:00:00:00:00:0B"; "AA:00:00:00:00:0B"; "host"; "Ethernet"]
                      = Some (of_int 0))
      by (vm_compute; reflexivity).
    rewrite <- H in Hbefore. vm_compute in Hbefore. discriminate.
  - split; [eexists; vm_compute; reflexivity|].
    vm_compute. repeat split.
Qed.

(** ** The loop is sequential *)

Lemma with_speedtest_duration_fast cfg d w st :
  after_fast_polls cfg (with_speedtest_duration d w) st = after_fast_polls cfg w st.
Proof. reflexivity. Qed.

(** C2, as the code has it. The loop awaits the speed test before it
    sleeps: the next router poll and latency probe are dispatched at the
    clock sample of this iteration, plus the running time of the speed test
    when one was due, plus the collection interval. *)
Theorem speedtest_delays_next_fast_polls cfg w st :
  next_fast_poll_start cfg w st
  = sample_time cfg w st
    + (if decide (speedtest_due cfg w st)
       then Z.of_N (took (speedtest_measure w)) else 0)
    + Z.max 0 (COLLECTION_INTERVAL cfg).
Proof.
  unfold next_fast_poll_start. rewrite update_metrics_iteration_run.
  cbn [snd]. unfold after_polls, sample_time.
  destruct (decide (speedtest_due cfg w st)).
  - change (clock (with_clock ?t ?s)) with t.
    change (clock (with_last_speedtest_time ?t ?s)) with (clock s).
    rewrite run_speedtest_clock. lia.
  - cbn. lia.
Qed.

(** C2, as stated, fails: in the first iteration of a process started at
    time 10000 a speed test that takes 40 seconds moves the dispatch of the
    next router poll from 10300 to 10340. *)
Lemma speedtest_delays_fast_collectors :
  ~ speedtest_never_delays default_config quiet_world (initial_state 10000) /\
  next_fast_poll_start default_config quiet_world (initial_state 10000) = 10300 /\
  next_fast_poll_start default_config (with_speedtest_duration 40 quiet_world)
    (initial_state 10000) = 10340.
Proof.
  split.
  - intros H. specialize (H 40%N). vm_compute in H. discriminate.
  - vm_compute. split; reflexivity.
Qed.

(** ** When polls are due *)


Lemma collect_then_ping_clock cfg w st :
  clock (snd (collect_sagemcom_metrics cfg w st)) <= sample_time cfg w st.
Proof. unfold sample_time, after_fast_polls. apply ping_google_clock. Qed.

Lemma after_polls_clock cfg w st :
  clock (after_polls cfg w st)
  = sample_time cfg w st
    + (if decide (speedtest_due cfg w st)
       then Z.of_N (took (speedtest_measure w)) else 0).
Proof.
  unfold after_polls, sample_time.
  destruct (decide (speedtest_due cfg w st)).
  - change (clock (with_last_speedtest_time ?t ?s)) with (clock s).
    now rewrite run_speedtest_clock.
  - lia.
Qed.


(** ** Errors are caught and logged *)

Lemma try_except_logs {A : Type} (body : M A) (handler : exn -> M A) (err : exn -> line) :
  (forall e st, head (stdout (snd (handler e st))) = Some (err e)) ->
  logs_errors body (try_except body handler) err.
Proof.
  intros Hh st e He. unfold try_except.
  destruct (body st) as [[a|e'] st1]; cbn in He; [discriminate|].
  injection He as ->. apply Hh.
Qed.

(** The rest of an iteration once the router poll has returned. *)
Lemma iteration_after_collect cfg w st :
  update_metrics_iteration cfg w st
  = (ping_google w ;;
     current_time <- now ;;
     last <- get_last_speedtest_time ;;
     (if decide (speedtest_interval_seconds <= current_time - last)
      then run_speedtest w ;; set_last_speedtest_time current_time
      else ret tt) ;;
     sleep (COLLECTION_INTERVAL cfg)) (snd (collect_sagemcom_metrics cfg w st)).
Proof.
  unfold update_metrics_iteration.
  now rewrite (bind_Ok _ _ _ _ _
                 (run_never_raises_unit _ st (collect_sagemcom_metrics_never_raises cfg w))).
Qed.

(** The loop runs its iterations one after the other, each from the state
    the previous one left. *)
Lemma update_metrics_loop_snoc cfg ws w st :
  update_metrics_loop cfg (ws ++ [w]) st
  = update_metrics_iteration cfg w (snd (update_metrics_loop cfg ws st)).
Proof.
  revert st. induction ws as [|w0 ws IH]; intros st; cbn.
  - unfold bind.
    rewrite (run_never_raises_unit _ st (update_metrics_iteration_never_raises cfg w)).
    reflexivity.
  - rewrite (bind_Ok _ _ _ _ _
               (run_never_raises_unit _ st (update_metrics_iteration_never_raises cfg w0))).
    rewrite (bind_Ok _ _ _ _ _
               (run_never_raises_unit _ st (update_metrics_iteration_never_raises cfg w0))).
    apply IH.
Qed.

(** No exception raised under the [try] of a collector escapes it: each
    of the six collectors always returns, and when its guarded statements
    raise, it prints the error line carrying that exception. Hence every
    iteration completes, the loop runs every iteration it is given, and
    after the router poll, failed or not, the iteration goes on with the
    latency probe (whose result is exported), the speed-test gate and the
    sleep, and then with the next iteration. *)
Theorem collector_errors_are_caught_and_logged cfg :
  (forall w,
      never_raises (fetch_public_ip w) /\
      never_raises (run_speedtest w) /\
      never_raises (ping_google w) /\
      never_raises (collect_port_mappings w) /\
      never_raises (collect_wifi_stats w) /\
      never_raises (collect_sagemcom_metrics cfg w)) /\
  (forall w,
      logs_errors (public_ip_try w) (fetch_public_ip w) ErrPublicIP /\
      logs_errors (speedtest_try w) (run_speedtest w) ErrSpeedTest /\
      logs_errors (ping_try w) (ping_google w) ErrPing /\
      logs_errors (port_mappings_try w) (collect_port_mappings w) ErrPortMappings /\
      logs_errors (wifi_stats_try w) (collect_wifi_stats w) ErrWifi /\
      logs_errors (device_session cfg w) (collect_sagemcom_metrics cfg w) ErrRetrieving) /\
  (forall w, never_raises (update_metrics_iteration cfg w)) /\
  (forall ws, never_raises (update_metrics_loop cfg ws)) /\
  (forall ws w st,
      update_metrics_loop cfg (ws ++ [w]) st
      = update_metrics_iteration cfg w (snd (update_metrics_loop cfg ws st))) /\
  (forall w st,
      exported_latency (snd (update_metrics_iteration cfg w st))
      = latency_of (result (ping3_ping w)) /\
      speedtest_runs cfg w st
      = (if decide (speedtest_due cfg w st) then 1%nat else 0%nat) /\
      clock (snd (update_metrics_iteration cfg w st))
      = clock (after_polls cfg w st) + Z.max 0 (COLLECTION_INTERVAL cfg)).
Proof.
  repeat apply conj.
  - intros w. repeat apply conj.
    + apply fetch_public_ip_never_raises.
    + apply run_speedtest_never_raises.
    + apply ping_google_never_raises.
    + apply collect_port_mappings_never_raises.
    + apply collect_wifi_stats_never_raises.
    + apply collect_sagemcom_metrics_never_raises.
  - intros w. repeat apply conj; apply try_except_logs; reflexivity.
  - apply update_metrics_iteration_never_raises.
  - apply update_metrics_loop_never_raises.
  - apply update_metrics_loop_snoc.
  - intros w st. repeat apply conj.
    + apply iteration_exports_latency.
    + apply speedtest_runs_due.
    + now rewrite update_metrics_iteration_run.
Qed.

(** The timed-out login is logged by the router poll. *)
Lemma collector_errors_are_caught_and_logged_witness :
  head (stdout (snd (collect_sagemcom_metrics default_config router_down
                       (initial_state 10000))))
  = Some (ErrRetrieving "timeout").
Proof.
  apply (collector_errors_are_caught_and_logged default_config).
  reflexivity.
Defined.

(** What a failed router session skips: the public-IP lookup that follows
    it under the same [try] is not attempted, so the record is not replaced
    even when the lookup would have succeeded. *)
Lemma failed_session_skips_public_ip cfg w st :
  request_fails w ->
  public_ip (snd (collect_sagemcom_metrics cfg w st)) = public_ip st.
Proof.
  intros Hreq.
  unfold collect_sagemcom_metrics, try_except, device_session, bind, await, eval.
  destruct (result (client_login w)) as [[]|e1] eqn:E1; [|reflexivity].
  destruct (result (client_get_device_info w)) as [device_info|e2] eqn:E2;
    [|reflexivity].
  cbn. destruct (up_time device_info); cbn; [|reflexivity].
  destruct (reboot_count device_info); cbn; [|reflexivity].
  destruct (result (client_get_hosts w)) as [devices|e3] eqn:E3.
  - destruct Hreq as [[e H]|[[e H]|[e H]]]; congruence.
  - unfold public_ip. cbn. now simpl_upd.
Qed.

(** ** Instances *)

(** Two hosts, one of them active: the gauge reads 1. *)
Lemma connected_devices_counts_active_hosts_witness :
  gauges after_two_hosts connected_devices_gauge = of_int 1.
Proof.
  apply (connected_devices_counts_active_hosts default_config two_hosts (initial_state 0)
           [example_host "AA:00:00:00:00:0A" true (Some 100);
            example_host "AA:00:00:00:00:0B" false (Some 200)]).
  - vm_compute. reflexivity.
  - reflexivity.
Defined.

(** The same poll leaves exactly the two series of its two hosts. *)
Lemma host_family_one_series_per_host_witness :
  map_to_list (status_family after_two_hosts)
  ≡ₚ [(["AA:00:00:00:00:0A"; "AA:00:00:00:00:0A"; "host"; "Ethernet"], of_int 1);
      (["AA:00:00:00:00:0B"; "AA:00:00:00:00:0B"; "host"; "Ethernet"], of_int 0)].
Proof.
  apply (host_family_one_series_per_host default_config two_hosts (initial_state 0)
           [example_host "AA:00:00:00:00:0A" true (Some 100);
            example_host "AA:00:00:00:00:0B" false (Some 200)]).
  - vm_compute. reflexivity.
  - reflexivity.
  - apply (bool_decide_unpack _). vm_compute. reflexivity.
Defined.

(** One successful lookup followed by two that time out: the record still
    holds the address of the successful one. *)
Lemma failed_public_ip_lookups_keep_info_witness :
  public_ip (snd (update_metrics_loop default_config
                    [quiet_world; lookup_times_out; lookup_times_out]
                    (initial_state 10000)))
  = [("public_ip", "203.0.113.7")].
Proof.
  assert (Hfail : Forall lookup_failed [lookup_times_out; lookup_times_out])
    by (repeat constructor; exists "timeout"; reflexivity).
  destruct (failed_public_ip_lookups_keep_info default_config _ Hfail) as (_ & _ & Hlast).
  apply Hlast.
  - vm_compute. reflexivity.
  - reflexivity.
  - discriminate.
Defined.



(** * Further properties of the script *)

(** ** The speed test *)

Lemma keeps_after_try_except {A X : Type} (proj : State -> X)
    (body : M A) (handler : exn -> M A) st :
  (forall e, keeps proj (handler e)) ->
  proj (snd (try_except body handler st)) = proj (snd (body st)).
Proof.
  intros Hh. unfold try_except. destruct (body st) as [[a|e] st1]; cbn.
  - reflexivity.
  - apply Hh.
Qed.

(** X1. A speed test exports all three of its values or none: when the
    measurement returns, the download and upload gauges hold the raw
    bit rates divided by 1,000,000 and the ping gauge the reported ping,
    and the result line is printed; when any step of the measurement
    raises, every gauge keeps its previous value and the error line is
    printed. In both cases [run_speedtest] returns normally. *)
Theorem speedtest_exports_all_or_nothing w st :
  let st' := snd (run_speedtest w st) in
  fst (run_speedtest w st) = Ok tt /\
  match result (speedtest_measure w) with
  | Ok (download, upload, ping_ms) =>
      gauges st' speedtest_download_gauge = Num (download / 1000000) /\
      gauges st' speedtest_upload_gauge = Num (upload / 1000000) /\
      gauges st' speedtest_ping_gauge = Num ping_ms /\
      stdout st'
      = MsgSpeedTest (download / 1000000) (upload / 1000000) ping_ms :: stdout st
  | Exc e =>
      (forall g, gauges st' g = gauges st g) /\
      stdout st' = ErrSpeedTest e :: stdout st
  end.
Proof.
  cbn zeta. unfold run_speedtest, speedtest_try, try_except, bind, await.
  destruct (result (speedtest_measure w)) as [[[download upload] ping_ms]|e]; cbn.
  - repeat apply conj; try reflexivity; now simpl_upd.
  - repeat apply conj; reflexivity.
Qed.

(** X2. The latency probe and the speed test write nothing but their own
    gauges: neither changes a labelled family, an info record, the timing
    variables or a gauge of another collector. *)
Theorem probes_write_only_their_gauges w st :
  (families (snd (ping_google w st)) = families st /\
   infos (snd (ping_google w st)) = infos st /\
   last_speedtest_time (snd (ping_google w st)) = last_speedtest_time st /\
   pull_times (snd (ping_google w st)) = pull_times st /\
   forall g, g <> google_ping_gauge ->
             gauges (snd (ping_google w st)) g = gauges st g) /\
  (families (snd (run_speedtest w st)) = families st /\
   infos (snd (run_speedtest w st)) = infos st /\
   last_speedtest_time (snd (run_speedtest w st)) = last_speedtest_time st /\
   pull_times (snd (run_speedtest w st)) = pull_times st /\
   forall g, is_speedtest_gauge g = false ->
             gauges (snd (run_speedtest w st)) g = gauges st g).
Proof.
  split.
  - unfold ping_google, ping_try, try_except, bind, await.
    destruct (result (ping3_ping w)) as [[seconds| |]|e]; cbn.
    all: repeat apply conj; try reflexivity.
    all: intros g Hg; now rewrite upd_ne.
  - unfold run_speedtest, speedtest_try, try_except, bind, await.
    destruct (result (speedtest_measure w)) as [[[download upload] ping_ms]|e]; cbn.
    all: repeat apply conj; try reflexivity.
    intros g Hg. destruct g; try discriminate; now simpl_upd.
Qed.

(** X3. The latency probe always returns normally, and the exported
    latency is the NaN sentinel exactly when [ping3.ping] returned [None]
    or raised; in every other case it is a number. *)
Theorem latency_is_nan_exactly_on_timeout_or_exception w st :
  fst (ping_google w st) = Ok tt /\
  (exported_latency (snd (ping_google w st)) = NaN <->
   result (ping3_ping w) = Ok PingNone \/ exists e, result (ping3_ping w) = Exc e).
Proof.
  split.
  - apply (f_equal fst (run_never_raises_unit _ st (ping_google_never_raises w))).
  - rewrite ping_google_exports.
    destruct (result (ping3_ping w)) as [[seconds| |]|e]; cbn; split.
    all: try discriminate; try (intros [H|[e' H]]; discriminate); eauto.
Qed.

(** ** Runs of the loop *)

Lemma update_metrics_loop_cons cfg w ws st :
  update_metrics_loop cfg (w :: ws) st
  = update_metrics_loop cfg ws (snd (update_metrics_iteration cfg w st)).
Proof.
  cbn.
  now rewrite (bind_Ok _ _ _ _ _
                 (run_never_raises_unit _ st (update_metrics_iteration_never_raises cfg w))).
Qed.

Lemma iteration_speedtest_lines cfg w st :
  speedtest_lines (snd (update_metrics_iteration cfg w st))
  = (speedtest_lines st + if decide (speedtest_due cfg w st) then 1 else 0)%nat.
Proof.
  rewrite update_metrics_iteration_run. cbn [snd].
  assert (Hfast : speedtest_lines (after_fast_polls cfg w st) = speedtest_lines st).
  { unfold after_fast_polls.
    now rewrite ping_google_keeps_speedtest_lines, collect_keeps_speedtest_lines. }
  unfold after_polls. destruct (decide (speedtest_due cfg w st)).
  - change (speedtest_lines (with_clock ?t (with_last_speedtest_time ?t' ?s)))
      with (speedtest_lines s).
    rewrite run_speedtest_lines, Hfast. lia.
  - change (speedtest_lines (with_clock ?t ?s)) with (speedtest_lines s).
    rewrite Hfast. lia.
Qed.

Lemma iteration_clock cfg w st :
  clock st + Z.max 0 (COLLECTION_INTERVAL cfg)
  <= clock (snd (update_metrics_iteration cfg w st)).
Proof.
  rewrite update_metrics_iteration_run. cbn [snd].
  change (clock (with_clock ?t ?s)) with t.
  pose proof (after_polls_clock cfg w st) as Hpolls.
  pose proof (sample_time_ge cfg w st) as Hge.
  destruct (decide (speedtest_due cfg w st)); lia.
Qed.

(** X4. Over any run of the loop the router is polled exactly once per
    iteration, the speed test runs at most once per iteration, and the
    iterations are at least the collection interval apart: after n
    iterations the clock has advanced by at least n times the interval. *)
Theorem loop_polls_once_per_iteration cfg ws st :
  let st' := snd (update_metrics_loop cfg ws st) in
  poll_lines st' = (poll_lines st + length ws)%nat /\
  (speedtest_lines st <= speedtest_lines st' <= speedtest_lines st + length ws)%nat /\
  clock st + Z.of_nat (length ws) * Z.max 0 (COLLECTION_INTERVAL cfg) <= clock st'.
Proof.
  cbn zeta. revert st. induction ws as [|w ws IH]; intros st.
  - cbn. repeat split; lia.
  - rewrite update_metrics_loop_cons.
    destruct (IH (snd (update_metrics_iteration cfg w st))) as (Hp & Hs & Hc).
    rewrite iteration_poll_lines in Hp.
    rewrite iteration_speedtest_lines in Hs.
    pose proof (iteration_clock cfg w st) as Hi.
    cbn [length].
    destruct (decide (speedtest_due cfg w st)); repeat split; lia.
Qed.

(** ** The announced pull times *)

Lemma sets_pull_times_when_ok_bind {A : Type} cfg (m : M A) (k : A -> M unit) :
  keeps pull_times m -> (forall a, sets_pull_times_when_ok cfg (k a)) ->
  sets_pull_times_when_ok cfg (bind m k).
Proof.
  intros Hm Hk st. unfold bind. specialize (Hm st).
  destruct (m st) as [[a|e] st1]; cbn in *.
  - specialize (Hk a st1). destruct (fst (k a st1)); congruence.
  - exact Hm.
Qed.

Lemma device_session_pull_times cfg w : sets_pull_times_when_ok cfg (device_session cfg w).
Proof.
  unfold device_session.
  do 18 (apply sets_pull_times_when_ok_bind; [solve_keeps | intros ?]).
  intros st. reflexivity.
Qed.

(** X5. The announced pull times follow successful polls only: a router
    poll that succeeds records the time at which it completed as the last
    pull and that time plus the collection interval as the next pull; a
    poll that fails leaves both as they were. The announced next pull is
    never later than the moment the next poll is really dispatched. *)
Theorem pull_times_follow_successful_polls cfg w st :
  let st1 := snd (collect_sagemcom_metrics cfg w st) in
  match fst (device_session cfg w st) with
  | Ok _ =>
      last_pull_time st1 = Some (clock st1) /\
      next_pull_time st1 = Some (clock st1 + COLLECTION_INTERVAL cfg) /\
      pull_times (snd (update_metrics_iteration cfg w st)) = pull_times st1 /\
      clock st1 + COLLECTION_INTERVAL cfg <= next_fast_poll_start cfg w st
  | Exc _ =>
      last_pull_time st1 = last_pull_time st /\
      next_pull_time st1 = next_pull_time st
  end.
Proof.
  cbn zeta. pose proof (device_session_pull_times cfg w st) as H.
  assert (Hiter : pull_times (snd (update_metrics_iteration cfg w st))
                  = pull_times (snd (collect_sagemcom_metrics cfg w st))).
  { rewrite iteration_after_collect. set (st1 := snd (collect_sagemcom_metrics cfg w st)).
    assert (Hrest : keeps pull_times
              (ping_google w ;;
               current_time <- now ;;
               last <- get_last_speedtest_time ;;
               (if decide (speedtest_interval_seconds <= current_time - last)
                then run_speedtest w ;; set_last_speedtest_time current_time
                else ret tt) ;;
               sleep (COLLECTION_INTERVAL cfg))) by solve_keeps.
    apply Hrest. }
  assert (Hnext : clock (snd (collect_sagemcom_metrics cfg w st))
                  + COLLECTION_INTERVAL cfg <= next_fast_poll_start cfg w st).
  { unfold next_fast_poll_start. rewrite update_metrics_iteration_run. cbn [snd].
    change (clock (with_clock ?t ?s)) with t.
    pose proof (after_polls_clock cfg w st) as Hpolls.
    pose proof (collect_then_ping_clock cfg w st) as Hping.
    destruct (decide (speedtest_due cfg w st)); lia. }
  unfold collect_sagemcom_metrics, try_except in *.
  destruct (device_session cfg w st) as [[[]|e] st1]; cbn in *.
  - unfold pull_times in H. injection H as Hl Hn. repeat split; assumption.
  - unfold pull_times in H. injection H as Hl Hn. split; assumption.
Qed.

(** ** The device session *)

Lemma await_Ok {A : Type} (c : call A) (a : A) st :
  result c = Ok a ->
  await c st = (Ok a, with_clock (clock st + Z.of_N (took c)) st).
Proof. intros H. unfold await. now rewrite H. Qed.

Lemma eval_py_float_Ok (z : Z) st : eval (py_float (Some z)) st = (Ok (of_int z), st).
Proof. reflexivity. Qed.

(** X6. The device counters are exported before the host table is
    requested: once login and [get_device_info] have returned numeric
    counters, the uptime gauge and the reboot-count gauge are those of this
    poll, whatever the later steps do, and also when the poll then fails. *)
Theorem device_identity_exported_before_host_table cfg w st device_info up reboots :
  result (client_login w) = Ok tt ->
  result (client_get_device_info w) = Ok device_info ->
  up_time device_info = Some up ->
  reboot_count device_info = Some reboots ->
  let st1 := snd (collect_sagemcom_metrics cfg w st) in
  gauges st1 device_uptime_gauge = of_int up /\
  gauges st1 device_reboot_count_gauge = of_int reboots.
Proof.
  intros Hlogin Hinfo Hup Hreb. cbn zeta. unfold collect_sagemcom_metrics.
  repeat apply conj.
  all: lazymatch goal with
       | |- ?f (snd (try_except ?b ?h ?s0)) ?x = _ =>
           rewrite (keeps_after_try_except (fun s1 => f s1 x) b h s0)
             by (intros ?; solve_keeps)
       end.
  all: unfold device_session.
  all: rewrite (bind_Ok _ _ _ _ _ (await_Ok _ _ st Hlogin)).
  all: rewrite (bind_Ok _ _ _ _ _ (await_Ok _ _ _ Hinfo)).
  all: rewrite (bind_Ok (print _) _ _ tt _ eq_refl).
  all: rewrite Hup, (bind_Ok _ _ _ _ _ (eval_py_float_Ok up _)).
  - lazymatch goal with
    | |- gauges (snd (bind ?m ?k ?s0)) ?x = _ =>
        rewrite (keeps_after_bind (fun s1 => gauges s1 x) m k s0)
          by (intros ?; rewrite ?Hreb; solve_keeps)
    end.
    cbn. now rewrite upd_eq.
  - rewrite (bind_Ok (gauge_set _ _) _ _ tt _ eq_refl).
    rewrite Hreb, (bind_Ok _ _ _ _ _ (eval_py_float_Ok reboots _)).
    lazymatch goal with
    | |- gauges (snd (bind ?m ?k ?s0)) ?x = _ =>
        rewrite (keeps_after_bind (fun s1 => gauges s1 x) m k s0)
          by (intros ?; solve_keeps)
    end.
    cbn. now rewrite upd_eq.
Qed.

(** A poll whose host-table request times out still exports the uptime. *)
Lemma device_identity_exported_before_host_table_witness :
  gauges (snd (collect_sagemcom_metrics default_config
                 (with_client_get_hosts (raises "timeout") quiet_world)
                 (initial_state 0))) device_uptime_gauge
  = of_int 86400.
Proof.
  apply (device_identity_exported_before_host_table default_config
           (with_client_get_hosts (raises "timeout") quiet_world)
           (initial_state 0) example_device_info 86400 3); reflexivity.
Defined.

(** A host that is exported without an exception has three numeric lease
    values. *)
Lemma export_device_Ok d st :
  fst (export_device d st) = Ok tt -> has_leases d.
Proof.
  unfold has_leases, export_device, bind, labels, child_set, eval.
  destruct (lease_start d), (lease_duration d), (lease_time_remaining d); cbn.
  all: repeat match goal with
         | |- context [match ?m !! ?k with _ => _ end] => destruct (m !! k); cbn
         end.
  all: intros H; try discriminate; repeat split; discriminate.
Qed.

Lemma for_each_export_device_Ok devices st :
  fst (for_each devices export_device st) = Ok tt -> Forall has_leases devices.
Proof.
  revert st. induction devices as [|d devices IH]; intros st; cbn.
  - constructor.
  - unfold bind. pose proof (export_device_Ok d st) as Hd.
    destruct (export_device d st) as [[[]|e] st1]; cbn in *.
    + intros H. constructor; [now apply Hd | now apply (IH st1)].
    + discriminate.
Qed.

(** X7. A router poll can only succeed when login returns,
    [get_device_info] returns a record with numeric uptime and reboot
    count, and [get_hosts] returns hosts whose three lease values are all
    numbers: a single null counter or lease value makes the whole poll
    fail. *)
Theorem successful_poll_has_numeric_values cfg w st :
  poll_succeeds cfg w st ->
  result (client_login w) = Ok tt /\
  exists device_info devices,
    result (client_get_device_info w) = Ok device_info /\
    has_counters device_info /\
    result (client_get_hosts w) = Ok devices /\
    Forall has_leases devices.
Proof.
  unfold poll_succeeds, device_session. intros H.
  apply bind_Ok_inv in H as ([] & st1 & E1 & H).
  apply bind_Ok_inv in H as (device_info & st2 & E2 & H).
  apply bind_Ok_inv in H as (r3 & st3 & E3 & H).
  apply bind_Ok_inv in H as (up & st4 & E4 & H).
  apply bind_Ok_inv in H as (r5 & st5 & E5 & H).
  apply bind_Ok_inv in H as (reboots & st6 & E6 & H).
  apply bind_Ok_inv in H as (r7 & st7 & E7 & H).
  apply bind_Ok_inv in H as (r8 & st8 & E8 & H).
  apply bind_Ok_inv in H as (devices & st9 & E9 & H).
  apply bind_Ok_inv in H as (r10 & st10 & E10 & H).
  apply bind_Ok_inv in H as (r11 & st11 & E11 & H).
  apply bind_Ok_inv in H as (r12 & st12 & E12 & H).
  apply bind_Ok_inv in H as (r13 & st13 & E13 & H).
  apply bind_Ok_inv in H as ([] & st14 & E14 & H).
  injection E1 as E1 _. injection E2 as E2 _. injection E9 as E9 _.
  split; [exact E1|]. exists device_info, devices.
  repeat apply conj; try assumption.
  - unfold eval in E4. destruct (up_time device_info); discriminate.
  - unfold eval in E6. destruct (reboot_count device_info); discriminate.
  - apply (for_each_export_device_Ok devices st13). now rewrite E14.
Qed.

(** The poll with two hosts succeeded: both have their lease values. *)
Lemma successful_poll_has_numeric_values_witness :
  exists device_info devices,
    result (client_get_device_info two_hosts) = Ok device_info /\
    has_counters device_info /\
    result (client_get_hosts two_hosts) = Ok devices /\
    Forall has_leases devices.
Proof.
  apply (successful_poll_has_numeric_values default_config two_hosts (initial_state 0)).
  vm_compute. reflexivity.
Defined.

(** ** The lease family *)

Lemma install_app (l1 l2 : list (list string * sample)) (m : family) :
  install (l1 ++ l2) m = install l2 (install l1 m).
Proof. unfold install. apply foldl_app. Qed.

Lemma export_device_lease (d : Device) (st : State) :
  has_leases d ->
  lease_family (snd (export_device d st))
  = install (lease_series_of d) (lease_family st).
Proof.
  intros (H1 & H2 & H3).
  unfold export_device, lease_family, lease_series_of, install, bind, labels,
    child_set, eval.
  destruct (lease_start d) as [z1|]; [|contradiction].
  destruct (lease_duration d) as [z2|]; [|contradiction].
  destruct (lease_time_remaining d) as [z3|]; [|contradiction].
  cbn.
  repeat match goal with
         | |- context [match ?m !! ?k with _ => _ end] => destruct (m !! k); cbn
         end.
  all: simpl_upd; rewrite ?insert_insert_eq; reflexivity.
Qed.

Lemma for_each_export_device_lease (devices : list Device) (st st1 : State) :
  for_each devices export_device st = (Ok tt, st1) ->
  lease_family st1 = install (lease_series devices) (lease_family st).
Proof.
  revert st. induction devices as [|d devices IH]; intros st E.
  - cbn in E. now injection E as <-.
  - cbn [for_each] in E. unfold bind in E.
    destruct (export_device d st) as [[[]|e] st2] eqn:Ed.
    + rewrite (IH _ E).
      change (lease_series (d :: devices))
        with (lease_series_of d ++ lease_series devices)%list.
      rewrite install_app. f_equal.
      pose proof (export_device_lease d st) as Hd. rewrite Ed in Hd. apply Hd.
      apply (export_device_Ok d st). now rewrite Ed.
    + discriminate.
Qed.

Lemma lease_series_key_owner (devices : list Device) (key : list string) :
  key ∈ (lease_series devices).*1 -> exists d, d ∈ devices /\ head key = Some (id d).
Proof.
  induction devices as [|d devices IH]; cbn.
  - intros H. inversion H.
  - unfold lease_series. cbn. rewrite !elem_of_cons.
    intros [->|[->|[->|H]]].
    1-3: exists d; split; [left | reflexivity].
    destruct (IH H) as (d' & Hd' & Hk). exists d'. split; [now right | exact Hk].
Qed.

Lemma lease_series_keys (devices : list Device) :
  NoDup (id <$> devices) -> NoDup (lease_series devices).*1.
Proof.
  induction devices as [|d devices IH]; cbn.
  - constructor.
  - intros Hnd. apply NoDup_cons in Hnd as [Hd Hnd]. specialize (IH Hnd).
    assert (Hfresh : forall metric,
               device_lease_labels d metric ∉ (lease_series devices).*1).
    { intros metric Hin. apply lease_series_key_owner in Hin as (d' & Hd' & Hk).
      cbn in Hk. injection Hk as Hk. apply Hd. rewrite Hk.
      now apply list_elem_of_fmap_2. }
    unfold lease_series in *. cbn.
    repeat (apply NoDup_cons; split).
    + rewrite !elem_of_cons. intros [H|[H|H]]; [discriminate | discriminate |].
      now apply (Hfresh "lease_start").
    + rewrite !elem_of_cons. intros [H|H]; [discriminate |].
      now apply (Hfresh "lease_duration").
    + apply (Hfresh "lease_remaining").
    + exact IH.
Qed.

Lemma collect_port_mappings_keeps_lease w : keeps lease_family (collect_port_mappings w).
Proof. solve_keeps. Qed.

Lemma collect_wifi_stats_keeps_lease w : keeps lease_family (collect_wifi_stats w).
Proof. solve_keeps. Qed.

Lemma fetch_public_ip_keeps_lease w : keeps lease_family (fetch_public_ip w).
Proof. solve_keeps. Qed.

(** X8. After a successful poll whose host table lists each host identifier
    once, the device-lease family consists, up to order, of exactly three
    series per host of that poll (lease_start, lease_duration and
    lease_remaining, each with the value the host reports), three times as
    many series as hosts; whatever the family held before the poll is
    gone. *)
Theorem lease_family_three_series_per_host cfg w st devices :
  poll_succeeds cfg w st ->
  result (client_get_hosts w) = Ok devices ->
  NoDup (id <$> devices) ->
  map_to_list (lease_family (snd (collect_sagemcom_metrics cfg w st)))
  ≡ₚ lease_series devices /\
  size (lease_family (snd (collect_sagemcom_metrics cfg w st)))
  = (3 * length devices)%nat.
Proof.
  intros H Hhosts Hnd.
  assert (Hfam : lease_family (snd (collect_sagemcom_metrics cfg w st))
                 = install (lease_series devices) ∅).
  { unfold collect_sagemcom_metrics.
    rewrite (try_except_Ok _ _ _ tt H).
    unfold poll_succeeds, device_session in *.
    run_ok H as r_login st1 E1.
    run_ok H as device_info st2 E2.
    run_prim H.
    run_ok H as up st3 E3.
    run_prim H.
    run_ok H as reboots st4 E4.
    run_prim H. run_prim H.
    run_ok H as devices' st5 E5.
    injection E5 as E5 <-. rewrite Hhosts in E5. injection E5 as <-.
    do 4 run_prim H.
    run_ok H as r_loop st6 E6. destruct r_loop.
    apply for_each_export_device_lease in E6.
    run_ok H as r_pm st7 E7.
    apply (keeps_run lease_family) in E7; [|apply collect_port_mappings_keeps_lease].
    run_ok H as r_wifi st8 E8.
    apply (keeps_run lease_family) in E8; [|apply collect_wifi_stats_keeps_lease].
    run_ok H as found st9 E9.
    apply (keeps_run lease_family) in E9; [|apply fetch_public_ip_keeps_lease].
    run_ok H as r_ip st10 E10.
    assert (Hip : lease_family st10 = lease_family st9).
    { destruct found as [ip|]; [destruct (decide (ip = ""))|]; cbn in E10;
        injection E10 as <- <-; reflexivity. }
    assert (Hfinal : lease_family (snd ((t <- now ;;
                set_pull_times t (t + COLLECTION_INTERVAL cfg) ;;
                print (MsgLastPull t) ;;
                print (MsgNextPull (t + COLLECTION_INTERVAL cfg))) st10))
              = lease_family st10) by reflexivity.
    rewrite Hfinal, Hip, E9, E8, E7, E6. f_equal. }
  assert (Hperm : map_to_list (lease_family (snd (collect_sagemcom_metrics cfg w st)))
                  ≡ₚ lease_series devices).
  { rewrite Hfam, install_list_to_map, (right_id_L ∅ (∪)).
    rewrite map_to_list_to_map.
    - apply reverse_Permutation.
    - rewrite fmap_reverse, reverse_Permutation. now apply lease_series_keys. }
  split; [exact Hperm|].
  rewrite <- length_map_to_list, Hperm. clear. induction devices as [|d devices IH]; cbn.
  - reflexivity.
  - unfold lease_series in *. cbn. rewrite IH. lia.
Qed.

(** The poll with two hosts leaves six lease series. *)
Lemma lease_family_three_series_per_host_witness :
  size (lease_family after_two_hosts) = 6%nat.
Proof.
  apply (lease_family_three_series_per_host default_config two_hosts (initial_state 0)
           [example_host "AA:00:00:00:00:0A" true (Some 100);
            example_host "AA:00:00:00:00:0B" false (Some 200)]).
  - vm_compute. reflexivity.
  - reflexivity.
  - apply (bool_decide_unpack _). vm_compute. reflexivity.
Defined.

(** ** The public address, continued *)

(** X9. A lookup that returns without an address (the reply has no [ip]
    key, or an empty one) is not an error and replaces nothing:
    [fetch_public_ip] prints no line, and the public-IP info record after
    the router poll is the one before it. *)
Theorem lookup_without_address_keeps_info cfg w st :
  lookup_without_address w ->
  stdout (snd (fetch_public_ip w st)) = stdout st /\
  fst (fetch_public_ip w st) = result (ipify_lookup w) /\
  public_ip (snd (collect_sagemcom_metrics cfg w st)) = public_ip st.
Proof.
  intros Hw. repeat apply conj.
  - unfold fetch_public_ip, public_ip_try, try_except, await.
    destruct Hw as [-> | ->]; reflexivity.
  - unfold fetch_public_ip, public_ip_try, try_except, await.
    destruct Hw as [-> | ->]; reflexivity.
  - unfold collect_sagemcom_metrics.
    rewrite (keeps_after_try_except public_ip) by (intros ?; solve_keeps).
    assert (Hkeeps : keeps public_ip (device_session cfg w)).
    { unfold device_session.
      do 16 (apply keeps_bind; [solve_keeps | intros ?]).
      apply (keeps_bind_returning _ (fun ip => ip = None \/ ip = Some "")).
      - solve_keeps.
      - intros s ip. unfold fetch_public_ip, public_ip_try, try_except, await.
        destruct Hw as [-> | ->]; cbn; intros [= <-]; auto.
      - intros ip [-> | ->]; solve_keeps. }
    apply Hkeeps.
Qed.

(** A reply with an empty address after a successful lookup: the record
    still holds the earlier address. *)
Lemma lookup_without_address_keeps_info_witness :
  public_ip (snd (collect_sagemcom_metrics default_config
                    (with_ipify_lookup (returns (Some "")) quiet_world)
                    after_two_hosts))
  = public_ip after_two_hosts.
Proof.
  apply (lookup_without_address_keeps_info default_config
           (with_ipify_lookup (returns (Some "")) quiet_world)).
  right. reflexivity.
Defined.

(** ** Port mappings *)

Lemma port_mappings_try_loop w :
  port_mappings_try w
  = (port_mappings <- await (client_port_mappings w) ;;
     clear port_mapping_gauge ;;
     if negb (truthy port_mappings) then ret tt
     else for_each (elements port_mappings) export_port_mapping).
Proof. reflexivity. Qed.

Lemma export_port_mapping_dict (d : list (string * scalar)) (st : State) :
  fst (export_port_mapping (IDict d) st) = Ok tt /\
  port_family (snd (export_port_mapping (IDict d) st))
  = <[port_mapping_labels d := of_int 1]> (port_family st).
Proof.
  unfold export_port_mapping, bind, eval, labels, child_set, port_family. cbn.
  destruct (families st port_mapping_gauge !! port_mapping_labels d); cbn.
  all: split; [reflexivity|]; simpl_upd; rewrite ?insert_insert_eq; reflexivity.
Qed.

Lemma port_mapping_loop (items : list (item scalar)) (st : State) :
  port_family (snd (for_each items export_port_mapping st))
  = install (port_series (leading_dicts items)) (port_family st) /\
  (fst (for_each items export_port_mapping st) = Ok tt <-> all_dicts items).
Proof.
  revert st. induction items as [|[d|] items IH]; intros st.
  - cbn. split; [reflexivity|]. split; [constructor | reflexivity].
  - cbn [for_each leading_dicts]. unfold bind.
    destruct (export_port_mapping_dict d st) as [Hok Hfam].
    destruct (export_port_mapping (IDict d) st) as [[[]|e] st1]; cbn in Hok, Hfam;
      [|discriminate].
    destruct (IH st1) as [IHfam IHok]. rewrite IHfam, Hfam. split.
    + reflexivity.
    + rewrite IHok. unfold all_dicts. split.
      * intros H. constructor; [now exists d | exact H].
      * intros H. now inversion H.
  - cbn. split; [reflexivity|]. split; [discriminate|].
    intros H. inversion H as [|? ? [d Hd] _]. discriminate.
Qed.

Lemma port_series_lookup (ds : list (list (string * scalar))) (key : list string) (x : sample) :
  install (port_series ds) ∅ !! key = Some x <->
  x = of_int 1 /\ exists d, d ∈ ds /\ key = port_mapping_labels d.
Proof.
  rewrite install_list_to_map, (right_id_L ∅ (∪)). split.
  - intros H. apply elem_of_list_to_map_2 in H.
    rewrite elem_of_reverse in H. unfold port_series in H.
    apply list_elem_of_fmap in H as (d & Heq & Hd).
    apply pair_equal_spec in Heq as [-> ->].
    split; [reflexivity | now exists d].
  - intros (-> & d & Hd & ->).
    destruct (list_to_map (reverse (port_series ds)) !! port_mapping_labels d)
      as [y|] eqn:Hy.
    + apply elem_of_list_to_map_2 in Hy.
      rewrite elem_of_reverse in Hy. unfold port_series in Hy.
      apply list_elem_of_fmap in Hy as (d' & Heq & _).
      apply pair_equal_spec in Heq as [_ ->]. reflexivity.
    + apply not_elem_of_list_to_map_2 in Hy. exfalso. apply Hy.
      rewrite fmap_reverse, elem_of_reverse. unfold port_series.
      rewrite <- list_fmap_compose. apply list_elem_of_fmap. now exists d.
Qed.

Lemma collect_port_mappings_family w st v :
  result (client_port_mappings w) = Ok v ->
  port_family (snd (collect_port_mappings w st))
  = install (port_series (leading_dicts (elements v))) ∅ /\
  (fst (port_mappings_try w st) = Ok tt <-> all_dicts (elements v)).
Proof.
  intros Hv. unfold collect_port_mappings.
  rewrite (keeps_after_try_except port_family) by (intros ?; solve_keeps).
  rewrite port_mappings_try_loop.
  rewrite (bind_Ok _ _ _ _ _ (await_Ok _ _ st Hv)).
  rewrite (bind_Ok (clear _) _ _ tt _ eq_refl).
  destruct v as [[|x items]|]; cbn [truthy negb elements].
  - cbn. split; [unfold port_family; cbn; now rewrite upd_eq|].
    split; [constructor | reflexivity].
  - match goal with |- context [for_each ?l _ ?s] =>
      destruct (port_mapping_loop l s) as [Hfam Hok] end.
    rewrite Hfam, Hok. split; [|reflexivity].
    f_equal; unfold port_family; cbn; now rewrite upd_eq.
  - cbn. split; [unfold port_family; cbn; now rewrite upd_eq|].
    split; [constructor | reflexivity].
Qed.

(** X10. Whenever the port-mapping request returns, the port-mapping family
    is rebuilt from nothing: afterwards it holds exactly the label tuples
    of the dictionaries that precede the first element that is not a
    dictionary, each with value 1, and no series of an earlier poll. A
    missing key is exported as "unknown" and a missing or falsy [enabled]
    as "inactive". The poll is an error exactly when some element is not a
    dictionary. *)
Theorem port_mapping_family_is_rebuilt w st v :
  result (client_port_mappings w) = Ok v ->
  let st' := snd (collect_port_mappings w st) in
  (forall key x,
      port_family st' !! key = Some x <->
      x = of_int 1 /\
      exists d, d ∈ leading_dicts (elements v) /\ key = port_mapping_labels d) /\
  (fst (port_mappings_try w st) = Ok tt <-> all_dicts (elements v)) /\
  port_mapping_labels [] = ["unknown"; "unknown"; "unknown"; "inactive"].
Proof.
  intros Hv. cbn zeta.
  destruct (collect_port_mappings_family w st v Hv) as [Hfam Hok].
  split; [|split].
  - intros key x. rewrite Hfam. apply port_series_lookup.
  - exact Hok.
  - reflexivity.
Qed.

(** Two mappings, the second without any key: both are exported. *)
Lemma port_mapping_family_is_rebuilt_witness :
  port_family (snd (collect_port_mappings forwarded_ports after_two_hosts))
  !! ["unknown"; "unknown"; "unknown"; "inactive"] = Some (of_int 1).
Proof.
  apply (port_mapping_family_is_rebuilt forwarded_ports after_two_hosts
           (Some two_port_mappings) eq_refl).
  split; [reflexivity|]. exists []. split; [|reflexivity].
  cbn. rewrite !elem_of_cons. right. left. reflexivity.
Defined.

(** X11. Polling the port mappings twice in the same world gives what one
    poll gives: every labelled family after the second poll equals the
    family after the first. *)
Theorem port_mapping_poll_is_idempotent w st g :
  families (snd (collect_port_mappings w (snd (collect_port_mappings w st)))) g
  = families (snd (collect_port_mappings w st)) g.
Proof.
  destruct (decide (g = port_mapping_gauge)) as [->|Hg].
  - destruct (result (client_port_mappings w)) as [v|e] eqn:Hv.
    + change (port_family (snd (collect_port_mappings w
                                  (snd (collect_port_mappings w st))))
              = port_family (snd (collect_port_mappings w st))).
      destruct (collect_port_mappings_family w st v Hv) as [-> _].
      now destruct (collect_port_mappings_family w
                      (snd (collect_port_mappings w st)) v Hv) as [-> _].
    + unfold collect_port_mappings, try_except, port_mappings_try, bind, await.
      rewrite Hv. reflexivity.
  - assert (Hkeeps : keeps (fun s => families s g) (collect_port_mappings w))
      by solve_keeps.
    apply Hkeeps.
Qed.

(** X12. The port-mapping and Wi-Fi collectors write nothing but their own
    families: neither changes a gauge, an info record, a timing variable
    or a labelled family of another collector. *)
Theorem nested_collectors_write_only_their_families w st :
  (gauges (snd (collect_port_mappings w st)) = gauges st /\
   infos (snd (collect_port_mappings w st)) = infos st /\
   last_speedtest_time (snd (collect_port_mappings w st)) = last_speedtest_time st /\
   pull_times (snd (collect_port_mappings w st)) = pull_times st /\
   forall g, g <> port_mapping_gauge ->
             families (snd (collect_port_mappings w st)) g = families st g) /\
  (gauges (snd (collect_wifi_stats w st)) = gauges st /\
   infos (snd (collect_wifi_stats w st)) = infos st /\
   last_speedtest_time (snd (collect_wifi_stats w st)) = last_speedtest_time st /\
   pull_times (snd (collect_wifi_stats w st)) = pull_times st /\
   forall g, g <> wifi_radio_signal_gauge -> g <> wifi_radio_channel_gauge ->
             families (snd (collect_wifi_stats w st)) g = families st g).
Proof.
  split; repeat apply conj.
  - apply collect_port_mappings_keeps_gauges.
  - assert (H : keeps infos (collect_port_mappings w)) by solve_keeps. apply H.
  - assert (H : keeps last_speedtest_time (collect_port_mappings w)) by solve_keeps.
    apply H.
  - assert (H : keeps pull_times (collect_port_mappings w)) by solve_keeps. apply H.
  - intros g Hg.
    assert (H : keeps (fun s => families s g) (collect_port_mappings w)) by solve_keeps.
    apply H.
  - apply collect_wifi_stats_keeps_gauges.
  - assert (H : keeps infos (collect_wifi_stats w)) by solve_keeps. apply H.
  - assert (H : keeps last_speedtest_time (collect_wifi_stats w)) by solve_keeps.
    apply H.
  - assert (H : keeps pull_times (collect_wifi_stats w)) by solve_keeps. apply H.
  - intros g Hs Hc.
    assert (H : keeps (fun s => families s g) (collect_wifi_stats w)) by solve_keeps.
    apply H.
Qed.

(** ** Wi-Fi radios *)

Lemma wifi_stats_try_loop w :
  wifi_stats_try w
  = (wifi_radios <- await (client_wifi_radios w) ;;
     if negb (truthy wifi_radios) then print MsgNoWifi
     else
       clear wifi_radio_signal_gauge ;;
       clear wifi_radio_channel_gauge ;;
       for_each (enumerate_from 0 (elements wifi_radios)) export_radio).
Proof. reflexivity. Qed.

(** Distinct integers have distinct decimal renderings. *)
Lemma str_of_int_inj (a b : Z) : str_of_int a = str_of_int b -> a = b.
Proof.
  unfold str_of_int. intros H.
  assert (Hparse : forall z, NilZero.int_of_string (NilZero.string_of_int (Z.to_int z))
                             = Some (Z.to_int z)).
  { intros z. apply NilZero.isi; destruct z; cbn; try discriminate.
    - intros [= Hp]. now apply DecimalPos.Unsigned.to_uint_nonnil in Hp.
    - intros [= Hp]. now apply DecimalPos.Unsigned.to_uint_nonnil in Hp. }
  pose proof (Hparse a) as Ha. rewrite H, Hparse in Ha. injection Ha as Ha.
  rewrite <- (DecimalZ.of_to a), <- (DecimalZ.of_to b). now rewrite Ha.
Qed.

Lemma export_radio_numeric (i : Z) (d : list (string * option Z)) (st : State) :
  numeric_radio d ->
  fst (export_radio (i, IDict d) st) = Ok tt /\
  signal_family (snd (export_radio (i, IDict d) st))
  = <[[str_of_int i] := lease_value (radio_signal d)]> (signal_family st) /\
  channel_family (snd (export_radio (i, IDict d) st))
  = <[[str_of_int i] := lease_value (radio_channel d)]> (channel_family st).
Proof.
  intros [Hs Hc].
  unfold export_radio, signal_family, channel_family, bind, eval, labels, child_set.
  cbn [get_method].
  fold (radio_signal d). fold (radio_channel d).
  destruct (radio_signal d) as [s|]; [|contradiction].
  destruct (radio_channel d) as [c|]; [|contradiction].
  cbn.
  repeat match goal with
         | |- context [match ?m !! ?k with _ => _ end] => destruct (m !! k); cbn
         end.
  all: repeat split; simpl_upd; rewrite ?insert_insert_eq; reflexivity.
Qed.

Lemma radio_loop (ds : list (list (string * option Z))) (i : Z) (st : State) :
  Forall numeric_radio ds ->
  fst (for_each (enumerate_from i (IDict <$> ds)) export_radio st) = Ok tt /\
  signal_family (snd (for_each (enumerate_from i (IDict <$> ds)) export_radio st))
  = install (radio_series radio_signal i ds) (signal_family st) /\
  channel_family (snd (for_each (enumerate_from i (IDict <$> ds)) export_radio st))
  = install (radio_series radio_channel i ds) (channel_family st).
Proof.
  intros Hds. revert i st. induction Hds as [|d ds Hd _ IH]; intros i st.
  - cbn. repeat split.
  - cbn [fmap list_fmap enumerate_from for_each radio_series]. unfold bind.
    destruct (export_radio_numeric i d st Hd) as (Hok & Hs & Hc).
    destruct (export_radio (i, IDict d) st) as [[[]|e] st1]; cbn in Hok, Hs, Hc;
      [|discriminate].
    destruct (IH (i + 1) st1) as (IHok & IHs & IHc).
    rewrite IHok, IHs, IHc, Hs, Hc. repeat split.
Qed.

Lemma radio_series_keys value (ds : list (list (string * option Z))) (i : Z) :
  (radio_series value i ds).*1
  = (fun k : nat => [str_of_int (i + Z.of_nat k)]) <$> seq 0 (length ds).
Proof.
  revert i. induction ds as [|d ds IH]; intros i; cbn.
  - reflexivity.
  - f_equal.
    + now rewrite Z.add_0_r.
    + rewrite IH. rewrite <- seq_shift, <- list_fmap_compose.
      apply list_fmap_ext. intros _ k _. cbn. do 2 f_equal. lia.
Qed.

Lemma radio_series_NoDup value (ds : list (list (string * option Z))) (i : Z) :
  NoDup (radio_series value i ds).*1.
Proof.
  rewrite radio_series_keys. apply NoDup_fmap_2.
  - intros a b [= H]. apply str_of_int_inj in H. lia.
  - apply NoDup_ListNoDup, List.seq_NoDup.
Qed.

Lemma radio_series_elem value (ds : list (list (string * option Z))) (i : Z) (k : nat) d :
  ds !! k = Some d ->
  ([str_of_int (i + Z.of_nat k)], lease_value (value d)) ∈ radio_series value i ds.
Proof.
  revert i k. induction ds as [|d0 ds IH]; intros i k H.
  - discriminate.
  - destruct k as [|k].
    + cbn in H. injection H as ->. cbn [radio_series].
      replace (i + Z.of_nat 0) with i by lia. apply list_elem_of_here.
    + cbn in H. cbn [radio_series]. apply list_elem_of_further.
      replace (i + Z.of_nat (S k)) with ((i + 1) + Z.of_nat k) by lia.
      apply (IH (i + 1) k H).
Qed.

Lemma radio_series_length value (ds : list (list (string * option Z))) (i : Z) :
  length (radio_series value i ds) = length ds.
Proof. revert i. induction ds as [|d ds IH]; intros i; cbn; [|rewrite IH]; reflexivity. Qed.

Lemma install_fresh_lookup (series : list (list string * sample)) key x :
  NoDup series.*1 -> (key, x) ∈ series -> install series ∅ !! key = Some x.
Proof.
  intros Hnd Hin. rewrite install_list_to_map, (right_id_L ∅ (∪)).
  apply elem_of_list_to_map_1.
  - now rewrite fmap_reverse, reverse_Permutation.
  - now rewrite elem_of_reverse.
Qed.

Lemma install_fresh_size (series : list (list string * sample)) :
  NoDup series.*1 -> size (install series ∅) = length series.
Proof.
  intros Hnd. rewrite install_list_to_map, (right_id_L ∅ (∪)).
  rewrite <- length_map_to_list, map_to_list_to_map.
  - apply length_reverse.
  - now rewrite fmap_reverse, reverse_Permutation.
Qed.

(** X13. A Wi-Fi poll that returns a non-empty list of radio dictionaries
    with numeric (or missing) channel and signal strength succeeds and
    rebuilds both Wi-Fi families from nothing: radio number k of the list
    is exported under the label [str(k)], with its signal strength in one
    family and its channel in the other (0 for a missing key), and each
    family holds exactly as many series as there are radios. *)
Theorem wifi_families_one_series_per_radio w st ds :
  result (client_wifi_radios w) = Ok (Some (IDict <$> ds)) ->
  ds <> [] ->
  Forall numeric_radio ds ->
  let st' := snd (collect_wifi_stats w st) in
  fst (wifi_stats_try w st) = Ok tt /\
  (forall k d,
      ds !! k = Some d ->
      signal_family st' !! [str_of_int (Z.of_nat k)]
      = Some (lease_value (radio_signal d)) /\
      channel_family st' !! [str_of_int (Z.of_nat k)]
      = Some (lease_value (radio_channel d))) /\
  size (signal_family st') = length ds /\
  size (channel_family st') = length ds /\
  radio_signal [] = Some 0 /\ radio_channel [] = Some 0.
Proof.
  intros Hv Hne Hds. cbn zeta.
  assert (Htruthy : truthy (Some (IDict <$> ds)) = true)
    by (destruct ds; [contradiction | reflexivity]).
  assert (Hshape : wifi_stats_try w st
            = for_each (enumerate_from 0 (IDict <$> ds)) export_radio
                (with_families
                   (upd wifi_radio_channel_gauge ∅
                      (upd wifi_radio_signal_gauge ∅ (families st)))
                   (with_families (upd wifi_radio_signal_gauge ∅ (families st))
                      (with_clock (clock st + Z.of_N (took (client_wifi_radios w))) st)))).
  { rewrite wifi_stats_try_loop.
    rewrite (bind_Ok _ _ _ _ _ (await_Ok _ _ st Hv)).
    rewrite Htruthy. cbn [negb].
    rewrite (bind_Ok (clear _) _ _ tt _ eq_refl).
    rewrite (bind_Ok (clear _) _ _ tt _ eq_refl). reflexivity. }
  match type of Hshape with _ = for_each _ _ ?s =>
    destruct (radio_loop ds 0 s Hds) as (Hok & Hs & Hc) end.
  rewrite <- Hshape in Hok, Hs, Hc.
  assert (Hrun : collect_wifi_stats w st = wifi_stats_try w st)
    by (unfold collect_wifi_stats; apply (try_except_Ok _ _ _ tt Hok)).
  assert (Hsig : signal_family (snd (collect_wifi_stats w st))
                 = install (radio_series radio_signal 0 ds) ∅).
  { rewrite Hrun, Hs. f_equal; unfold signal_family; cbn; now simpl_upd. }
  assert (Hcha : channel_family (snd (collect_wifi_stats w st))
                 = install (radio_series radio_channel 0 ds) ∅).
  { rewrite Hrun, Hc. f_equal; unfold channel_family; cbn; now simpl_upd. }
  split; [exact Hok|]. split; [|split; [|split; [|split; reflexivity]]].
  - intros k d Hk. rewrite Hsig, Hcha. split.
    + apply install_fresh_lookup; [apply radio_series_NoDup|].
      apply (radio_series_elem radio_signal ds 0 k d Hk).
    + apply install_fresh_lookup; [apply radio_series_NoDup|].
      apply (radio_series_elem radio_channel ds 0 k d Hk).
  - rewrite Hsig, install_fresh_size by apply radio_series_NoDup.
    apply radio_series_length.
  - rewrite Hcha, install_fresh_size by apply radio_series_NoDup.
    apply radio_series_length.
Qed.

(** One radio on channel 6 at -40 dBm replaces whatever was exported. *)
Lemma wifi_families_one_series_per_radio_witness :
  size (signal_family (snd (collect_wifi_stats one_radio after_two_hosts))) = 1%nat.
Proof.
  apply (wifi_families_one_series_per_radio one_radio after_two_hosts
           [[("channel", Some 6); ("signal_strength", Some (-40))]]).
  - reflexivity.
  - discriminate.
  - repeat constructor; discriminate.
Defined.

(** X14. A first radio whose signal strength is null aborts the Wi-Fi poll
    after both families were cleared and after the child for radio 0 was
    created: the poll is logged as an error, the signal family holds the
    single series of radio 0 with value 0, the channel family is empty, and
    the remaining radios are not exported. *)
Theorem null_signal_leaves_half_installed_series w st d rest :
  result (client_wifi_radios w) = Ok (Some (IDict d :: rest)) ->
  radio_signal d = None ->
  let st' := snd (collect_wifi_stats w st) in
  (exists e, fst (wifi_stats_try w st) = Exc e /\
             stdout st' = ErrWifi e :: stdout st) /\
  signal_family st' = {[ ["0"] := of_int 0 ]} /\
  channel_family st' = ∅.
Proof.
  intros Hv Hsig. cbn zeta.
  unfold collect_wifi_stats, try_except. rewrite wifi_stats_try_loop.
  rewrite (bind_Ok _ _ _ _ _ (await_Ok _ _ st Hv)).
  cbn [truthy negb elements].
  rewrite (bind_Ok (clear _) _ _ tt _ eq_refl).
  rewrite (bind_Ok (clear _) _ _ tt _ eq_refl).
  cbn [enumerate_from for_each]. unfold radio_signal in Hsig.
  unfold export_radio, bind, labels, eval, py_float, signal_family, channel_family.
  cbn [get_method families with_families with_clock]. cbv zeta. rewrite Hsig.
  simpl_upd. rewrite lookup_empty. cbn. simpl_upd.
  repeat apply conj; try reflexivity.
  eexists. split; reflexivity.
Qed.

(** Two radios, the first without a signal strength: only a zero for radio
    0 is exported. *)
Lemma null_signal_leaves_half_installed_series_witness :
  signal_family (snd (collect_wifi_stats radio_without_signal after_two_hosts))
  = {[ ["0"] := of_int 0 ]}.
Proof.
  apply (null_signal_leaves_half_installed_series radio_without_signal after_two_hosts
           [("channel", Some 11); ("signal_strength", None)]
           [IDict [("channel", Some 36); ("signal_strength", Some (-55))]]);
    reflexivity.
Defined.

(** ** An empty host table *)

(** X15. A successful poll whose host table is empty exports no host at
    all: the connected-devices gauge reads 0 and the device-status,
    device-lease and device-info families are empty, whatever they held
    before. *)
Theorem empty_host_table_exports_nothing cfg w st :
  poll_succeeds cfg w st ->
  result (client_get_hosts w) = Ok [] ->
  let st' := snd (collect_sagemcom_metrics cfg w st) in
  gauges st' connected_devices_gauge = of_int 0 /\
  families st' device_status_gauge = ∅ /\
  families st' device_lease_gauge = ∅ /\
  families st' device_info_gauge = ∅.
Proof.
  intros H Hhosts. cbn zeta.
  pose proof (successful_poll_status_family cfg w st [] H Hhosts) as Hstatus.
  pose proof (empty_host_table_empties_families cfg w st) as Hempty.
  repeat apply conj.
  - unfold collect_sagemcom_metrics.
    rewrite (try_except_Ok _ _ _ tt H).
    unfold poll_succeeds, device_session in *.
    run_ok H as r_login st1 E1.
    run_ok H as device_info st2 E2.
    run_prim H.
    run_ok H as up st3 E3.
    run_prim H.
    run_ok H as reboots st4 E4.
    run_prim H. run_prim H.
    run_ok H as devices' st5 E5.
    injection E5 as E5 <-. rewrite Hhosts in E5. injection E5 as <-.
    do 4 run_prim H.
    run_ok H as r_loop st6 E6.
    apply (keeps_run gauges) in E6; [|apply export_device_keeps_gauges].
    run_ok H as r_pm st7 E7.
    apply (keeps_run gauges) in E7; [|apply collect_port_mappings_keeps_gauges].
    run_ok H as r_wifi st8 E8.
    apply (keeps_run gauges) in E8; [|apply collect_wifi_stats_keeps_gauges].
    run_ok H as found st9 E9.
    apply (keeps_run gauges) in E9; [|apply fetch_public_ip_keeps_gauges].
    run_ok H as r_ip st10 E10.
    assert (Hip : gauges st10 = gauges st9).
    { destruct found as [ip|]; [destruct (decide (ip = ""))|]; cbn in E10;
        injection E10 as <- <-; reflexivity. }
    cbn. rewrite Hip, E9, E8, E7, E6. cbn. now rewrite upd_eq.
  - exact Hstatus.
  - apply Hempty; auto.
  - apply Hempty; auto.
Qed.

(** The quiet world reports no host: after it the two hosts are gone. *)
Lemma empty_host_table_exports_nothing_witness :
  families (snd (collect_sagemcom_metrics default_config quiet_world after_two_hosts))
    device_status_gauge = ∅.
Proof.
  apply (empty_host_table_exports_nothing default_config quiet_world after_two_hosts).
  - vm_compute. reflexivity.
  - reflexivity.
Defined.

(** * The host family and error isolation, as the code has them *)

(** ** The host family *)

Lemma host_series_lookup (devices : list Device) (key : list string) (x : sample) :
  install (host_series devices) ∅ !! key = Some x ->
  exists d, d ∈ devices /\ key = device_status_labels d /\ x = active_flag d.
Proof.
  rewrite install_list_to_map, (right_id_L ∅ (∪)). intros H.
  apply elem_of_list_to_map_2 in H. rewrite elem_of_reverse in H.
  unfold host_series in H.
  apply list_elem_of_fmap in H as (d & Heq & Hd).
  apply pair_equal_spec in Heq as [-> ->]. now exists d.
Qed.

Lemma host_series_present (devices : list Device) (d : Device) :
  d ∈ devices -> is_Some (install (host_series devices) ∅ !! device_status_labels d).
Proof.
  intros Hd. rewrite install_list_to_map, (right_id_L ∅ (∪)).
  destruct (list_to_map (reverse (host_series devices)) !! device_status_labels d)
    as [x|] eqn:Hx; [now exists x|].
  apply not_elem_of_list_to_map_2 in Hx. exfalso. apply Hx.
  rewrite fmap_reverse, elem_of_reverse. unfold host_series.
  rewrite <- list_fmap_compose. apply list_elem_of_fmap. now exists d.
Qed.

(** C4, as the code has it. After every successful poll the device-status
    family is rebuilt from the host table of that poll alone: every series
    it holds carries the labels (identifier, name, host name, interface)
    and the state of a host of the table, every host of the table has the
    series of its labels, and nothing is left over from an earlier poll.
    When the table lists each identifier once, that is, up to order,
    exactly one series per host identifier. *)
Theorem host_family_one_series_per_label_tuple cfg w st devices :
  poll_succeeds cfg w st ->
  result (client_get_hosts w) = Ok devices ->
  let fam := status_family (snd (collect_sagemcom_metrics cfg w st)) in
  (forall key x,
      fam !! key = Some x ->
      exists d, d ∈ devices /\ key = device_status_labels d /\ x = active_flag d) /\
  (forall d, d ∈ devices -> is_Some (fam !! device_status_labels d)) /\
  (NoDup (id <$> devices) -> map_to_list fam ≡ₚ host_series devices).
Proof.
  intros H Hhosts. cbn zeta.
  rewrite (successful_poll_status_family cfg w st devices H Hhosts).
  split; [|split].
  - apply host_series_lookup.
  - apply host_series_present.
  - intros Hnd.
    rewrite <- (successful_poll_status_family cfg w st devices H Hhosts).
    now apply host_family_one_series_per_host.
Qed.

(** The poll with two hosts: the series of the second host is there. *)
Lemma host_family_one_series_per_label_tuple_witness :
  is_Some (status_family after_two_hosts
           !! device_status_labels (example_host "AA:00:00:00:00:0B" false (Some 200))).
Proof.
  apply (host_family_one_series_per_label_tuple default_config two_hosts (initial_state 0)
           [example_host "AA:00:00:00:00:0A" true (Some 100);
            example_host "AA:00:00:00:00:0B" false (Some 200)]).
  - vm_compute. reflexivity.
  - reflexivity.
  - rewrite !elem_of_cons. right. left. reflexivity.
Defined.

(** C4, as stated, fails: the series are keyed by the four labels, not by
    the identifier alone. A host table that lists the identifier
    AA:00:00:00:00:0A twice, as "laptop" and as "laptop-wifi", is exported
    by a successful poll as two series with that identifier. *)
Lemma repeated_identifier_has_two_series :
  let st' := snd (collect_sagemcom_metrics default_config repeated_identifier
                    (initial_state 0)) in
  ~ one_series_per_identifier default_config repeated_identifier (initial_state 0) /\
  poll_succeeds default_config repeated_identifier (initial_state 0) /\
  series_of_identifier (status_family st') "AA:00:00:00:00:0A" = 2%nat /\
  status_family st' !! ["AA:00:00:00:00:0A"; "laptop"; "laptop"; "Ethernet"]
  = Some (of_int 1) /\
  status_family st' !! ["AA:00:00:00:00:0A"; "laptop-wifi"; "laptop-wifi"; "Ethernet"]
  = Some (of_int 0).
Proof.
  cbn zeta.
  assert (Hok : poll_succeeds default_config repeated_identifier (initial_state 0))
    by (vm_compute; reflexivity).
  split.
  - intros H.
    specialize (H Hok _ eq_refl (renamed_host "AA:00:00:00:00:0A" "laptop" true)).
    assert (Hin : renamed_host "AA:00:00:00:00:0A" "laptop" true
                  ∈ [renamed_host "AA:00:00:00:00:0A" "laptop" true;
                     renamed_host "AA:00:00:00:00:0A" "laptop-wifi" false])
      by (rewrite !elem_of_cons; left; reflexivity).
    specialize (H Hin). vm_compute in H. discriminate.
  - split; [exact Hok|]. vm_compute. repeat split.
Qed.

(** ** Error isolation *)










